(** * CodeSensei backend: a model of [app.py] and its request-level properties

    The Flask application of [app.py] is glue between three collaborators:
    an identity provider ([auth.verify_id_token]), a hierarchical document
    store ([db], users -> sessions -> messages) and a generative model
    ([model.generate_content]).  The five route handlers are embedded here
    as programs of a small state-and-exception monad over a [world] made of
    the document store and the log of calls made to the collaborators.

    Scope of the model:
    - the identity provider, the generative model, the server clock, the
      generator of document ids and the wall clock are parameters
      (class [Services]); the first two may raise;
    - the document store is an in-memory model of the two collections the
      handlers read, sessions and messages, plus the documents written at
      deeper paths; the store client is followed where it refuses its
      arguments: a document path is split on ["/"] and must have an even
      number of elements, an integer must fit in 64 bits, a client object
      is not a value.  What the server of the store may refuse beyond that
      (reserved names, sizes) is outside the model: the theorems that
      conclude on a write are stated for ids without ["/"] and for messages
      that are strings;
    - Python values are the JSON-shaped ones (no floats);
    - [request.json] is taken as already parsed: it is a field of the
      request. *)

From Stdlib Require Import ZArith String Ascii List Sorting.Sorted Permutation Lia.
From stdpp Require Import base option list gmap strings sorting.

Set Warnings "-register-all".

Local Open Scope Z_scope.
Local Open Scope string_scope.

(** ** Python values *)

Module Py.

(** The values that travel through the handlers: what [json.loads] builds,
    plus the timestamps read back from the store. *)
Inductive pyval : Type :=
| PNone
| PBool (b : bool)
| PInt (n : Z)
| PStr (s : string)
| PTime (t : Z)
| PList (l : list pyval)
| PDict (d : list (string * pyval)).

(** [bool(v)]: Python truth value testing. *)
Definition truthy (v : pyval) : bool :=
  match v with
  | PNone => false
  | PBool b => b
  | PInt n => negb (Z.eqb n 0)
  | PStr s => negb (String.eqb s "")
  | PTime _ => true
  | PList l => match l with [] => false | _ => true end
  | PDict d => match d with [] => false | _ => true end
  end.

(** [a or b] on values. *)
Definition py_or (a b : pyval) : pyval := if truthy a then a else b.

(** [type(v).__name__] *)
Definition type_name (v : pyval) : string :=
  match v with
  | PNone => "NoneType"
  | PBool _ => "bool"
  | PInt _ => "int"
  | PStr _ => "str"
  | PTime _ => "DatetimeWithNanoseconds"
  | PList _ => "list"
  | PDict _ => "dict"
  end.

(** Lists and dicts define no [__hash__]. *)
Definition hashable (v : pyval) : bool :=
  match v with
  | PList _ | PDict _ => false
  | _ => true
  end.

(** Exceptions: the class and [str(e)]. *)
Inductive exn : Type := Exn (cls : string) (msg : string).

Definition str_exn (e : exn) : string := let 'Exn _ m := e in m.

Definition AttributeError (ty attr : string) : exn :=
  Exn "AttributeError" ("'" +:+ ty +:+ "' object has no attribute '" +:+ attr +:+ "'").
Definition IndexError (what : string) : exn :=
  Exn "IndexError" (what +:+ " index out of range").
Definition TypeError (msg : string) : exn := Exn "TypeError" msg.
Definition KeyError (msg : string) : exn := Exn "KeyError" msg.
Definition ValueError (msg : string) : exn := Exn "ValueError" msg.

(** An evaluation either yields a value or raises. *)
Inductive outcome (A : Type) : Type :=
| Ok (a : A)
| Raise (e : exn).
Arguments Ok {A} a.
Arguments Raise {A} e.

(** Lookup in a [dict] whose keys are strings. *)
Fixpoint assoc {A} (k : string) (d : list (string * A)) : option A :=
  match d with
  | [] => None
  | (k', v) :: d' => if String.eqb k k' then Some v else assoc k d'
  end.

(** [d.get(k, dflt)] when [d] is a dict. *)
Definition dict_get (d : list (string * pyval)) (k : string) (dflt : pyval) : pyval :=
  match assoc k d with
  | Some v => v
  | None => dflt
  end.

(** [v.get(k, dflt)] on an arbitrary value: only a dict has the method. *)
Definition py_get (v : pyval) (k : string) (dflt : pyval) : outcome pyval :=
  match v with
  | PDict d => Ok (dict_get d k dflt)
  | _ => Raise (AttributeError (type_name v) "get")
  end.

(** [s.split(sep)] for a non-empty separator: the pieces between the
    non-overlapping occurrences of [sep], searched from the left.  [skip]
    counts the characters of a matched separator still to be dropped and
    [cur] is the piece being read. *)
Fixpoint split_from (sep : string) (skip : nat) (cur : string) (s : string) : list string :=
  match s with
  | EmptyString => [cur]
  | String c s' =>
      match skip with
      | S k => split_from sep k cur s'
      | O =>
          if String.prefix sep s
          then cur :: split_from sep (Nat.pred (String.length sep)) "" s'
          else split_from sep O (cur +:+ String c "") s'
      end
  end.

Definition split (s sep : string) : list string := split_from sep O "" s.

(** [l[i]] on a list. *)
Definition index {A} (l : list A) (i : nat) : outcome A :=
  match l !! i with
  | Some x => Ok x
  | None => Raise (IndexError "list")
  end.

End Py.
Export Py.

(** ** The document store, the collaborators and the world *)

(** The claims of a verified token; the handlers read only ['uid']. *)
Record decoded_token : Type := { uid : string }.

(** A document of [users/<uid>/sessions].  [created_at] is the commit time
    the server wrote for [firestore.SERVER_TIMESTAMP]. *)
Record session_doc : Type := {
  s_name : option pyval;
  s_created_at : Z }.

(** A document of [users/<uid>/sessions/<sid>/messages], with its id. *)
Record message_doc : Type := {
  m_id : string;
  m_role : string;
  m_content : pyval;
  m_timestamp : Z }.

(** Collections are keyed by their path: a session document and the
    messages subcollection under the same path are independent entries, as
    in the store.  [sessions] holds the documents of
    [users/<uid>/sessions], keyed by user and id; [messages] holds the
    documents, written by [add], of [users/<uid>/sessions/<path>/messages],
    keyed by user and path; [others] holds the documents set at a deeper
    path [users/<uid>/sessions/<a>/<b>/<c>...], keyed by user and path:
    no query of the application returns them. *)
Record store : Type := {
  sessions : gmap (string * string) session_doc;
  messages : gmap (string * string) (list message_doc);
  others : gmap (string * string) session_doc }.

(** One turn of the conversation handed to the model:
    [{"role": role, "parts": parts}]. *)
Record turn : Type := { role : string; parts : list pyval }.

(** What [generate_content] returns: a plain value, or a client object
    whose [text] attribute is missing, holds a value, or raises when read. *)
Inductive attr : Type :=
| AttrMissing
| AttrValue (v : pyval)
| AttrRaises (e : exn).

Inductive pyobj : Type :=
| Plain (v : pyval)
| Object (text : attr).

Record datetime : Type := { year : nat; month : nat; day : nat; hour : nat; minute : nat }.

(** The collaborators of the application. *)
Class Services : Type := {
  (** [auth.verify_id_token] *)
  verify_id_token : string -> outcome decoded_token;
  (** [model.generate_content] for [genai.GenerativeModel(GEMINI_MODEL)] *)
  generate_content : list turn -> outcome pyobj;
  (** the value the server writes for [SERVER_TIMESTAMP] when a write is
      committed on the given store *)
  server_timestamp : store -> Z;
  (** the id [document()] and [add] generate for a new document *)
  auto_id : store -> string;
  (** [datetime.datetime.now(datetime.timezone.utc)] *)
  utcnow : datetime }.

(** Calls made to the collaborators, in order. *)
Inductive event : Type :=
| EvVerifyIdToken (id_token : string)
| EvSessionsStream (user_id : string)
| EvSessionSet (user_id session_id : string) (d : session_doc)
| EvSessionDelete (user_id session_id : string)
| EvMessagesStream (user_id session_id : string) (descending : bool) (limit : option nat)
| EvMessageAdd (user_id session_id : string) (d : message_doc)
| EvGenerateContent (conversation : list turn).

Definition is_store_event (e : event) : bool :=
  match e with
  | EvVerifyIdToken _ | EvGenerateContent _ => false
  | _ => true
  end.

Definition is_store_write (e : event) : bool :=
  match e with
  | EvSessionSet _ _ _ | EvSessionDelete _ _ | EvMessageAdd _ _ _ => true
  | _ => false
  end.

Definition is_inference_event (e : event) : bool :=
  match e with
  | EvGenerateContent _ => true
  | _ => false
  end.

Record world : Type := { db : store; log : list event }.

(** ** The monad of handlers: state of the world, and exceptions

    A raised exception keeps the world reached so far: what was written
    before the exception stays written. *)

Definition M (A : Type) : Type := world -> outcome A * world.

#[global] Instance M_ret : MRet M := fun A a w => (Ok a, w).

#[global] Instance M_bind : MBind M := fun A B f m w =>
  match m w with
  | (Ok a, w') => f a w'
  | (Raise e, w') => (Raise e, w')
  end.

Definition lift {A} (o : outcome A) : M A := fun w => (o, w).

Definition raise {A} (e : exn) : M A := lift (Raise e).

(** [try: body  except Exception as e: handler e] *)
Definition try_except {A} (body : M A) (handler : exn -> M A) : M A := fun w =>
  match body w with
  | (Ok a, w') => (Ok a, w')
  | (Raise e, w') => handler e w'
  end.

Definition emit (e : event) : M unit := fun w =>
  (Ok tt, {| db := db w; log := (log w ++ [e])%list |}).

Definition get_db : M store := fun w => (Ok (db w), w).

Definition put_db (s : store) : M unit := fun w =>
  (Ok tt, {| db := s; log := log w |}).

(** ** Queries and writes on the store *)

(** [order_by('timestamp')]: by the field, then by document id. *)
Definition message_leb (a b : message_doc) : bool :=
  Z.ltb (m_timestamp a) (m_timestamp b)
  || (Z.eqb (m_timestamp a) (m_timestamp b) && String.leb (m_id a) (m_id b)).

Definition message_le : relation message_doc := fun a b => message_leb a b = true.

#[global] Instance message_le_dec : RelDecision message_le :=
  fun a b => decide (message_leb a b = true).

#[global] Instance message_ge_dec : RelDecision (flip message_le) :=
  fun a b => decide (message_leb b a = true).

(** [order_by('created_at')] on session documents, paired with their ids. *)
Definition session_leb (a b : string * session_doc) : bool :=
  Z.ltb (s_created_at a.2) (s_created_at b.2)
  || (Z.eqb (s_created_at a.2) (s_created_at b.2) && String.leb a.1 b.1).

Definition session_le : relation (string * session_doc) :=
  fun a b => session_leb a b = true.

#[global] Instance session_le_dec : RelDecision session_le :=
  fun a b => decide (session_leb a b = true).

#[global] Instance session_ge_dec : RelDecision (flip session_le) :=
  fun a b => decide (session_leb b a = true).

(** The documents of [users/<user_id>/sessions], with their ids. *)
Definition sessions_of (s : store) (user_id : string) : list (string * session_doc) :=
  omap (fun kd : string * string * session_doc =>
          if decide (kd.1.1 = user_id) then Some (kd.1.2, kd.2) else None)
       (map_to_list (sessions s)).

(** The documents of [users/<user_id>/sessions/<session_id>/messages]. *)
Definition messages_of (s : store) (user_id session_id : string) : list message_doc :=
  default [] (messages s !! (user_id, session_id)).

Definition order_by_timestamp (descending : bool) (l : list message_doc) : list message_doc :=
  if descending then merge_sort (flip message_le) l else merge_sort message_le l.

Definition limit_to {A} (limit : option nat) (l : list A) : list A :=
  match limit with
  | Some n => take n l
  | None => l
  end.

(** [sep.join(l)] *)
Fixpoint join (sep : string) (l : list string) : string :=
  match l with
  | [] => ""
  | [x] => x
  | x :: l' => x +:+ sep +:+ join sep l'
  end.

(** A reference to a document under [users/<uid>/sessions]: a document of
    the collection itself, or a document at a deeper path.  The path is
    kept as the string it was given by. *)
Inductive doc_ref : Type :=
| SessionRef (id : string)
| NestedRef (path : string).

Definition ref_path (r : doc_ref) : string :=
  match r with
  | SessionRef id => id
  | NestedRef path => path
  end.

(** [ref.id]: the last element of the path. *)
Definition ref_id (r : doc_ref) : string :=
  match r with
  | SessionRef id => id
  | NestedRef path => default "" (last (split path "/"))
  end.

(** The message document that a document path addresses, if any: the path
    [<q>/messages/<id>] is the message [id] of the collection [q]. *)
Definition addressed_message (path : string) : option (string * string) :=
  match rev (split path "/") with
  | id :: collection :: q =>
      if String.eqb collection "messages" then Some (join "/" (rev q), id) else None
  | _ => None
  end.

(** The integers the store encodes are the signed 64-bit ones. *)
Definition in_int64 (n : Z) : bool := Z.leb (- 2 ^ 63) n && Z.ltb n (2 ^ 63).

Fixpoint encodable (v : pyval) : bool :=
  match v with
  | PInt n => in_int64 n
  | PList l => forallb encodable l
  | PDict d => forallb (fun kv : string * pyval => let '(_, x) := kv in encodable x) d
  | _ => true
  end.

(** A field value the store can encode: a client object is not one, nor is
    an integer out of range. *)
Definition field_value (o : pyobj) : outcome pyval :=
  match o with
  | Plain v =>
      if encodable v then Ok v
      else Raise (ValueError "Value out of range")
  | Object _ => Raise (TypeError "Cannot convert to a Firestore Value")
  end.

Section Handlers.
Context `{Services}.

(** [sessions.document(document_id)] on the store [s]: without an id, or
    with [None], the client generates one.  Otherwise it joins the path of
    the collection and the id and splits the result on ["/"]: the path of
    a document must have an even number of elements, three of which come
    before the id; an id that is not a string cannot be joined. *)
Definition document (s : store) (document_id : pyval) : outcome doc_ref :=
  match document_id with
  | PNone => Ok (SessionRef (auto_id s))
  | PStr id =>
      match split id "/" with
      | [_] => Ok (SessionRef id)
      | elements =>
          if Nat.even (length elements)
          then Raise (ValueError "A document must have an even number of path elements")
          else Ok (NestedRef id)
      end
  | _ => Raise (TypeError ("sequence item 3: expected str instance, "
                           +:+ type_name document_id +:+ " found"))
  end.

(** [sessions.order_by('created_at', direction=DESCENDING).stream()] *)
Definition sessions_stream (user_id : string) : M (list (string * session_doc)) :=
  emit (EvSessionsStream user_id);;
  s ← get_db;
  mret (merge_sort (flip session_le) (sessions_of s user_id)).

(** The store after [ref.set(d)].  A document of the sessions collection
    is created or replaced.  A document at a deeper path is created or
    replaced there; when the path is that of a message, the message is
    replaced by a document without the fields of a message, which no query
    on [timestamp] returns. *)
Definition with_session (s : store) (user_id : string) (ref : doc_ref) (d : session_doc)
    : store :=
  match ref with
  | SessionRef id =>
      {| sessions := <[(user_id, id) := d]> (sessions s);
         messages := messages s;
         others := others s |}
  | NestedRef path =>
      {| sessions := sessions s;
         messages :=
           match addressed_message path with
           | Some (q, id) =>
               alter (filter (fun m => negb (String.eqb (m_id m) id))) (user_id, q)
                     (messages s)
           | None => messages s
           end;
         others := <[(user_id, path) := d]> (others s) |}
  end.

(** [ref.set({"name": name, "created_at": SERVER_TIMESTAMP})] *)
Definition session_set (user_id : string) (ref : doc_ref) (name : pyval) : M unit :=
  s ← get_db;
  let d := {| s_name := Some name; s_created_at := server_timestamp s |} in
  emit (EvSessionSet user_id (ref_path ref) d);;
  put_db (with_session s user_id ref d).

(** [sessions.document(session_id).delete()] *)
Definition session_delete (user_id session_id : string) : M unit :=
  s ← get_db;
  emit (EvSessionDelete user_id session_id);;
  put_db {| sessions := delete (user_id, session_id) (sessions s);
            messages := messages s;
            others := others s |}.

(** [messages.order_by('timestamp', ...).limit(...).stream()] *)
Definition messages_stream (user_id session_id : string) (descending : bool)
    (limit : option nat) : M (list message_doc) :=
  emit (EvMessagesStream user_id session_id descending limit);;
  s ← get_db;
  mret (limit_to limit (order_by_timestamp descending (messages_of s user_id session_id))).

(** [messages.add({'role': role, 'content': content, 'timestamp': SERVER_TIMESTAMP})] *)
Definition added_message (s : store) (role : string) (content : pyval) : message_doc :=
  {| m_id := auto_id s; m_role := role; m_content := content;
     m_timestamp := server_timestamp s |}.

Definition with_message (s : store) (user_id session_id : string) (d : message_doc) : store :=
  {| sessions := sessions s;
     messages := <[(user_id, session_id) := (messages_of s user_id session_id ++ [d])%list]>
                   (messages s);
     others := others s |}.

Definition message_add (user_id session_id : string) (role : string) (content : pyobj) : M unit :=
  v ← lift (field_value content);
  s ← get_db;
  let d := added_message s role v in
  emit (EvMessageAdd user_id session_id d);;
  put_db (with_message s user_id session_id d).

(** [doc.to_dict()] *)
Definition session_to_dict (d : session_doc) : list (string * pyval) :=
  match s_name d with
  | Some n => [("name", n); ("created_at", PTime (s_created_at d))]
  | None => [("created_at", PTime (s_created_at d))]
  end.

Definition message_to_dict (d : message_doc) : list (string * pyval) :=
  [("role", PStr (m_role d)); ("content", m_content d); ("timestamp", PTime (m_timestamp d))].

(** ** The application *)

Definition CREATOR_NOTE : string := "Creator: Syed Gohar Hussain.".

Definition SYSTEM_PROMPTS : list (string * string) :=
  [ ("coding_coach",
     CREATOR_NOTE +:+ " " +:+ (
       "You are CodeSensei, a 'Coding Coach'. Your goal is to help users learn by guiding them, "
       +:+ "not giving direct answers. Use the Socratic method. Ask probing questions that lead them "
       +:+ "to the solution. Provide small hints and conceptual explanations. Never write whole blocks of code. "
       +:+ "Your tone is encouraging, wise, and patient, like a sensei."));
    ("debugging_assistant",
     CREATOR_NOTE +:+ " " +:+ (
       "You are CodeSensei, a 'Debugging Assistant'. The user will provide code with errors. "
       +:+ "Analyze it carefully. Do not fix the code for them. Instead, identify the errors and give hints "
       +:+ "about where to look and what concepts might be involved. For example, say 'Look closely at your loop on line 5. "
       +:+ "What happens on the final iteration?' or 'That error often relates to variable types. Have you checked the type of 'x'?'"));
    ("general",
     CREATOR_NOTE +:+ " " +:+ (
       "You are CodeSensei, a helpful AI assistant with a Socratic teaching style. For any general question, "
       +:+ "your role is to foster understanding and critical thinking. Break down complex topics into smaller, "
       +:+ "manageable parts. Ask questions to gauge the user's understanding before providing more information. "
       +:+ "Guide them towards discovering the answer themselves.")) ].

(** [SYSTEM_PROMPTS[k]] *)
Definition system_prompts_item (k : string) : outcome string :=
  match assoc k SYSTEM_PROMPTS with
  | Some p => Ok p
  | None => Raise (KeyError ("'" +:+ k +:+ "'"))
  end.

(** [SYSTEM_PROMPTS.get(mode, dflt)]: the key is hashed first; a key that
    is not a string equals none of the keys of the table. *)
Definition system_prompts_get (mode : pyval) (dflt : string) : outcome string :=
  if hashable mode then
    Ok (match mode with
        | PStr k => default dflt (assoc k SYSTEM_PROMPTS)
        | _ => dflt
        end)
  else Raise (TypeError ("unhashable type: '" +:+ type_name mode +:+ "'")).

(** A request, as far as the handlers look at it:
    [request.headers.get('Authorization')] and [request.json]. *)
Record request : Type := {
  authorization : option string;
  json : pyval }.

(** What a view returns: [jsonify(body), status]. *)
Record response : Type := { body : pyval; status : nat }.

Definition jsonify (v : pyval) : pyval := v.

Definition error_body (msg : string) : pyval := PDict [("error", PStr msg)].

Definition unauthorized : response :=
  {| body := jsonify (error_body "Unauthorized"); status := 401 |}.

(** [auth.verify_id_token(id_token)] *)
Definition call_verify_id_token (id_token : string) : M decoded_token :=
  emit (EvVerifyIdToken id_token);;
  lift (verify_id_token id_token).

(** [model.generate_content(conversation)] *)
Definition call_generate_content (conversation : list turn) : M pyobj :=
  emit (EvGenerateContent conversation);;
  lift (generate_content conversation).

Definition verify_token (request : request) : M (option decoded_token) :=
  try_except
    (header ← match authorization request with
              | Some h => mret h
              | None => raise (AttributeError "NoneType" "split")
              end;
     id_token ← lift (index (split header "Bearer ") 1);
     decoded_token ← call_verify_id_token id_token;
     mret (Some decoded_token))
    (fun _ => mret None).

(** [f"Session {doc.id[:5]}"] *)
Definition default_session_name (id : string) : string :=
  "Session " +:+ String.substring 0 5 id.

(** The [try] block of [get_chat_sessions], lines 88-93. *)
Definition get_chat_sessions_try (user : decoded_token) : M response :=
  let user_id := uid user in
  docs ← sessions_stream user_id;
  let sessions :=
    map (fun doc : string * session_doc =>
           PDict [("id", PStr doc.1);
                  ("name", dict_get (session_to_dict doc.2) "name"
                             (PStr (default_session_name doc.1)))])
        docs in
  mret {| body := jsonify (PList sessions); status := 200 |}.

Definition get_chat_sessions (request : request) : M response :=
  user ← verify_token request;
  match user with
  | None => mret unauthorized
  | Some user =>
      try_except
        (get_chat_sessions_try user)
        (fun e => mret {| body := jsonify (error_body (str_exn e)); status := 500 |})
  end.

(** [strftime]: zero-padded decimal fields. *)
Definition digit (n : nat) : ascii := ascii_of_nat (48 + n mod 10)%nat.

Definition zero_pad2 (n : nat) : string :=
  String (digit (n / 10)) (String (digit n) "").

Definition zero_pad4 (n : nat) : string :=
  String (digit (n / 1000)) (String (digit (n / 100)) (zero_pad2 n)).

(** [d.strftime("%Y-%m-%d %H:%M")] *)
Definition strftime_minute (d : datetime) : string :=
  zero_pad4 (year d) +:+ "-" +:+ zero_pad2 (month d) +:+ "-" +:+ zero_pad2 (day d)
  +:+ " " +:+ zero_pad2 (hour d) +:+ ":" +:+ zero_pad2 (minute d).

(** The [try] block of [create_session], lines 102-117. *)
Definition create_session_try (user : decoded_token) (request : request) : M response :=
  let user_id := uid user in
  let timestamp := strftime_minute utcnow in
  let body := py_or (json request) (PDict []) in
  session_name ← lift (py_get body "session_name" PNone);
  s ← get_db;
  new_session_ref ←
    (if truthy session_name
     then lift (document s session_name)
     else lift (document s PNone));
  session_set user_id new_session_ref
    (py_or session_name (PStr ("Chat - " +:+ timestamp)));;
  mret {| body := jsonify (PDict [("session_id", PStr (ref_id new_session_ref));
                                  ("name", py_or session_name
                                             (PStr ("Chat - " +:+ timestamp)))]);
          status := 200 |}.

Definition create_session (request : request) : M response :=
  user ← verify_token request;
  match user with
  | None => mret unauthorized
  | Some user =>
      try_except
        (create_session_try user request)
        (fun e => mret {| body := jsonify (error_body (str_exn e)); status := 500 |})
  end.

(** The [try] block of [get_session_messages], lines 127-132.  The
    [session_id] of the two routes below is one segment of the URL: the
    router gives it no ["/"]. *)
Definition get_session_messages_try (session_id : string) (user : decoded_token)
    : M response :=
  let user_id := uid user in
  docs ← messages_stream user_id session_id false None;
  let messages := map (fun msg => PDict (message_to_dict msg)) docs in
  mret {| body := jsonify (PList messages); status := 200 |}.

Definition get_session_messages (session_id : string) (request : request) : M response :=
  user ← verify_token request;
  match user with
  | None => mret unauthorized
  | Some user =>
      try_except
        (get_session_messages_try session_id user)
        (fun e => mret {| body := jsonify (error_body (str_exn e)); status := 500 |})
  end.

(** The [try] block of [delete_session], lines 141-147. *)
Definition delete_session_try (session_id : string) (user : decoded_token) : M response :=
  let user_id := uid user in
  session_delete user_id session_id;;
  mret {| body := jsonify (PDict [("success", PBool true)]); status := 200 |}.

Definition delete_session (session_id : string) (request : request) : M response :=
  user ← verify_token request;
  match user with
  | None => mret unauthorized
  | Some user =>
      try_except
        (delete_session_try session_id user)
        (fun e => mret {| body := jsonify (error_body (str_exn e)); status := 500 |})
  end.

#[global] Instance outcome_ret : MRet outcome := fun A a => Ok a.

#[global] Instance outcome_bind : MBind outcome := fun A B f o =>
  match o with
  | Ok a => f a
  | Raise e => Raise e
  end.

(** [v == s] for a string literal [s]. *)
Definition py_eq_str (v : pyval) (s : string) : bool :=
  match v with
  | PStr s' => String.eqb s' s
  | _ => false
  end.

(** The body of the loop over [history_docs], before the [insert]. *)
Definition history_turn (doc : message_doc) : turn :=
  let msg := message_to_dict doc in
  let role := if py_eq_str (dict_get msg "role" PNone) "assistant" then "model" else "user" in
  {| role := role; parts := [dict_get msg "content" PNone] |}.

(** [history = []; for doc in history_docs: history.insert(0, ...)] *)
Definition build_history (history_docs : list message_doc) : list turn :=
  fold_left (fun history doc => history_turn doc :: history) history_docs [].

Definition ACKNOWLEDGEMENT : string :=
  "Understood. I will act as CodeSensei and guide the user.".

(** [getattr(response, 'text', None)] *)
Definition getattr_text (response : pyobj) : outcome pyval :=
  match response with
  | Plain _ => Ok PNone
  | Object AttrMissing => Ok PNone
  | Object (AttrValue v) => Ok v
  | Object (AttrRaises e) => Raise e
  end.

(** [v[0]] *)
Definition subscript0 (v : pyval) : outcome pyval :=
  match v with
  | PList l => index l 0
  | PStr (String c _) => Ok (PStr (String c ""))
  | PStr EmptyString => Raise (IndexError "string")
  | PDict _ => Raise (KeyError "0")
  | _ => Raise (TypeError ("'" +:+ type_name v +:+ "' object is not subscriptable"))
  end.

(** Lines 196-198 of [chat]: the text of the reply, recovered from the
    shapes the client may return. *)
Definition reply_text (response : pyobj) : outcome pyobj :=
  text ← getattr_text response;
  let ai_message := if truthy text then Plain text else response in
  match ai_message with
  | Plain (PDict d) =>
      match assoc "candidates" d with
      | Some candidates =>
          first ← subscript0 candidates;
          content ← py_get first "content" (PStr "");
          mret (Plain content)
      | None => mret ai_message
      end
  | _ => mret ai_message
  end.

(** What [jsonify] can serialise. *)
Definition json_value (o : pyobj) : outcome pyval :=
  match o with
  | Plain v => Ok v
  | Object _ => Raise (TypeError "Object is not JSON serializable")
  end.

(** The [try] block of [chat], lines 166-207.  [messages_ref] is the
    collection [messages] under the document that [session_id] refers to;
    it is built once, before the first write. *)
Definition chat_try (user_id : string) (user_message mode session_id : pyval) : M response :=
  s ← get_db;
  session_ref ← lift (document s session_id);
  let sid := ref_path session_ref in
  message_add user_id sid "user" (Plain user_message);;
  history_docs ← messages_stream user_id sid true (Some 20%nat);
  let history := build_history history_docs in
  general ← lift (system_prompts_item "general");
  system_instruction ← lift (system_prompts_get mode general);
  let conversation :=
    ([ {| role := "user"; parts := [PStr system_instruction] |};
       {| role := "model"; parts := [PStr ACKNOWLEDGEMENT] |} ] ++ history)%list in
  response ← call_generate_content conversation;
  ai_message ← lift (reply_text response);
  message_add user_id sid "assistant" ai_message;;
  reply ← lift (json_value ai_message);
  mret {| body := jsonify (PDict [("response", reply)]); status := 200 |}.

Definition chat (request : request) : M response :=
  user ← verify_token request;
  match user with
  | None => mret unauthorized
  | Some user =>
      let data := json request in
      user_message ← lift (py_get data "message" PNone);
      mode ← lift (py_get data "mode" (PStr "general"));
      session_id ← lift (py_get data "session_id" PNone);
      let user_id := uid user in
      if negb (truthy user_message) || negb (truthy session_id) then
        mret {| body := jsonify (error_body "Message and session_id are required");
                status := 400 |}
      else
        try_except
          (chat_try user_id user_message mode session_id)
          (fun e =>
             mret {| body := jsonify (PDict [("error", PStr "An error occurred.");
                                             ("details", PStr (str_exn e))]);
                     status := 500 |})
  end.

(** The routing table of the application. *)
Inductive route : Type :=
| GetChatSessions
| CreateSession
| GetSessionMessages (session_id : string)
| DeleteSession (session_id : string)
| Chat.

Definition handle (r : route) (request : request) : M response :=
  match r with
  | GetChatSessions => get_chat_sessions request
  | CreateSession => create_session request
  | GetSessionMessages session_id => get_session_messages session_id request
  | DeleteSession session_id => delete_session session_id request
  | Chat => chat request
  end.

End Handlers.

#[global] Arguments document {_} _ _ : simpl never.

(** ** Vocabulary of the properties *)

(** [sep] occurs somewhere in [s]. *)
Fixpoint occurs (sep s : string) : bool :=
  match s with
  | EmptyString => false
  | String _ s' => String.prefix sep s || occurs sep s'
  end.

Section Vocabulary.
Context `{Services}.

(** The request carries a token that the identity provider accepts. *)
Definition authenticated (request : request) (user : decoded_token) : Prop :=
  exists header id_token,
    authorization request = Some header
    /\ split header "Bearer " !! 1%nat = Some id_token
    /\ verify_id_token id_token = Ok user.

(** The three ways a request fails the gate: no header, no bearer token in
    the header, a token the identity provider refuses. *)
Inductive token_rejected (request : request) : Prop :=
| header_missing :
    authorization request = None -> token_rejected request
| bearer_missing header :
    authorization request = Some header ->
    occurs "Bearer " header = false ->
    token_rejected request
| verification_failed header id_token e :
    authorization request = Some header ->
    split header "Bearer " !! 1%nat = Some id_token ->
    verify_id_token id_token = Raise e ->
    token_rejected request.

End Vocabulary.

(** [body.get('session_name')], with [body = request.json or {}]. *)
Definition requested_name (request : request) : outcome pyval :=
  py_get (py_or (json request) (PDict [])) "session_name" PNone.

(** [SYSTEM_PROMPTS["general"]] *)
Definition general_prompt : string := default "" (assoc "general" SYSTEM_PROMPTS).

(** The answer of [chat] to an exception. *)
Definition chat_error (e : exn) : response :=
  {| body := PDict [("error", PStr "An error occurred."); ("details", PStr (str_exn e))];
     status := 500 |}.

(** The answer of the other routes to an exception. *)
Definition route_error (e : exn) : response :=
  {| body := PDict [("error", PStr (str_exn e))]; status := 500 |}.



(** The conversations handed to the model, read off a log. *)
Definition sent_conversations (evs : list event) : list (list turn) :=
  omap (fun e => match e with EvGenerateContent c => Some c | _ => None end) evs.

(** The conversation of a chat request, following the words of the
    specification: the instruction turn, the acknowledgement turn, then the
    most recent twenty stored messages, fetched newest first and reversed,
    with the stored role ["assistant"] renamed ["model"] and every other
    role ["user"]. *)
Definition remap_role (stored : string) : string :=
  if String.eqb stored "assistant" then "model" else "user".

Definition newest_first (stored : list message_doc) : list message_doc :=
  merge_sort (flip message_le) stored.

Definition spec_conversation (instruction : string) (stored : list message_doc) : list turn :=
  ([ {| role := "user"; parts := [PStr instruction] |};
     {| role := "model"; parts := [PStr ACKNOWLEDGEMENT] |} ]
   ++ map (fun m => {| role := remap_role (m_role m); parts := [m_content m] |})
          (rev (take 20 (newest_first stored))))%list.

(** The instruction of a mode, following the words of the specification. *)
Definition spec_instruction (mode : option string) : option string :=
  match mode with
  | Some m =>
      if String.eqb m "coding_coach" then assoc "coding_coach" SYSTEM_PROMPTS
      else if String.eqb m "debugging_assistant" then assoc "debugging_assistant" SYSTEM_PROMPTS
      else assoc "general" SYSTEM_PROMPTS
  | None => assoc "general" SYSTEM_PROMPTS
  end.


(** An entry of the list of sessions. *)
Definition session_entry (doc : string * session_doc) : pyval :=
  PDict [("id", PStr doc.1);
         ("name", default (PStr (default_session_name doc.1)) (s_name doc.2))].

(** ** A small world to run the handlers in *)

Module Demo.

Definition count_docs (s : store) : nat :=
  (size (sessions s) + map_fold (fun _ l n => length l + n) 0 (messages s))%nat.

(** Accepts the token ["good"] for the user [alice]; the model answers
    ["Hello"]; the clock and the ids count the documents stored so far. *)
Definition services : Services := {|
  verify_id_token tok :=
    if String.eqb tok "good" then Ok {| uid := "alice" |}
    else Raise (Exn "InvalidIdTokenError" "Invalid token");
  generate_content _ := Ok (Object (AttrValue (PStr "Hello")));
  server_timestamp s := Z.of_nat (count_docs s);
  auto_id s := "doc" +:+ String (digit (count_docs s)) "";
  utcnow := {| year := 2024; month := 3; day := 7; hour := 9; minute := 5 |} |}.

(** The same, with a model that raises. *)
Definition failing_model : Services := {|
  verify_id_token := @verify_id_token services;
  generate_content _ := Raise (Exn "ResourceExhausted" "429 quota exceeded");
  server_timestamp := @server_timestamp services;
  auto_id := @auto_id services;
  utcnow := @utcnow services |}.

Definition empty_world : world :=
  {| db := {| sessions := ∅; messages := ∅; others := ∅ |}; log := [] |}.

Definition post (b : pyval) : request :=
  {| authorization := Some "Bearer good"; json := b |}.

Definition hello : pyval := PDict [("message", PStr "hi"); ("session_id", PStr "s1")].

(** A store with two sessions of [alice] and one of [bob], and three
    messages under [alice/s1]. *)
Definition msg (id role content : string) (t : Z) : message_doc :=
  {| m_id := id; m_role := role; m_content := PStr content; m_timestamp := t |}.

Definition busy_store : store :=
  {| sessions :=
       <[("alice", "s1") := {| s_name := Some (PStr "first"); s_created_at := 10 |}]>
       (<[("alice", "s2") := {| s_name := None; s_created_at := 20 |}]>
       (<[("bob", "s1") := {| s_name := Some (PStr "other"); s_created_at := 15 |}]> ∅));
     messages :=
       <[("alice", "s1") := [msg "c" "assistant" "two" 3; msg "a" "user" "one" 2;
                             msg "b" "user" "three" 5]]> ∅;
     others := ∅ |}.

Definition busy_world : world := {| db := busy_store; log := [] |}.

End Demo.

(** ** Vocabulary of the effects *)

Definition is_verify_event (e : event) : bool :=
  match e with
  | EvVerifyIdToken _ => true
  | _ => false
  end.

(** Whatever [m] returns or raises, it takes a world to one related by [R]. *)
Definition effect {A} (R : relation world) (m : M A) : Prop :=
  forall w, R w (m w).2.

(** The values [m] returns satisfy [post]. *)
Definition returns {A} (post : A -> Prop) (m : M A) : Prop :=
  forall w a, (m w).1 = Ok a -> post a.

(** The store moves along [P]; the calls added to the log all satisfy [Q]. *)
Definition changes (P : relation store) (Q : event -> Prop) : relation world :=
  fun w w' => P (db w) (db w') /\ exists evs, log w' = (log w ++ evs)%list /\ Forall Q evs.

Definition same_sessions : relation store := fun s s' => sessions s' = sessions s.

Definition same_messages : relation store := fun s s' => messages s' = messages s.

(** No collection of messages gains a message. *)
Definition no_new_message : relation store := fun s s' =>
  forall user_id session_id m,
    m ∈ messages_of s' user_id session_id -> m ∈ messages_of s user_id session_id.

(** Nothing stored under a user other than [user_id] moves. *)
Definition only_under (user_id : string) : relation store := fun s s' =>
  forall k : string * string, k.1 <> user_id ->
    sessions s' !! k = sessions s !! k /\ messages s' !! k = messages s !! k
    /\ others s' !! k = others s !! k.

(** The user whose collections a call to the store reads or writes. *)
Definition event_user (e : event) : option string :=
  match e with
  | EvSessionsStream u | EvSessionSet u _ _ | EvSessionDelete u _
  | EvMessagesStream u _ _ _ | EvMessageAdd u _ _ => Some u
  | EvVerifyIdToken _ | EvGenerateContent _ => None
  end.

Definition is_session_write (e : event) : bool :=
  match e with
  | EvSessionSet _ _ _ | EvSessionDelete _ _ => true
  | _ => false
  end.

Definition is_message_write (e : event) : bool :=
  match e with
  | EvMessageAdd _ _ _ => true
  | _ => false
  end.

(** A date and time of the four-digit years, as the wall clock gives. *)
Definition valid_datetime (d : datetime) : Prop :=
  (1000 <= year d < 100 * 100 /\ 1 <= month d <= 12 /\ 1 <= day d <= 31
   /\ hour d < 24 /\ minute d < 60)%nat.

(** The instruction of a mode of any type, following the words of the
    specification: a mode that is not a string names no instruction. *)
Definition mode_name (mode : pyval) : option string :=
  match mode with
  | PStr m => Some m
  | _ => None
  end.

(** The calls of a chat request that runs to its end, in order. *)
Definition chat_calls (id_token user_id session_id : string) (d_user : message_doc)
    (conversation : list turn) (d_assistant : message_doc) : list event :=
  [ EvVerifyIdToken id_token;
    EvMessageAdd user_id session_id d_user;
    EvMessagesStream user_id session_id true (Some 20%nat);
    EvGenerateContent conversation;
    EvMessageAdd user_id session_id d_assistant ].

(** ** More worlds to run the handlers in *)

Module Demo2.

(** Two users: the token ["good"] is [alice]'s, the token ["bobs"] is
    [bob]'s. *)
Definition services : Services := {|
  verify_id_token tok :=
    if String.eqb tok "good" then Ok {| uid := "alice" |}
    else if String.eqb tok "bobs" then Ok {| uid := "bob" |}
    else Raise (Exn "InvalidIdTokenError" "Invalid token");
  generate_content := @generate_content Demo.services;
  server_timestamp := @server_timestamp Demo.services;
  auto_id := @auto_id Demo.services;
  utcnow := @utcnow Demo.services |}.

Definition post_as_bob (b : pyval) : request :=
  {| authorization := Some "Bearer bobs"; json := b |}.

(** A model whose response object has an empty [text]. *)
Definition silent_model : Services := {|
  verify_id_token := @verify_id_token Demo.services;
  generate_content _ := Ok (Object (AttrValue (PStr "")));
  server_timestamp := @server_timestamp Demo.services;
  auto_id := @auto_id Demo.services;
  utcnow := @utcnow Demo.services |}.

(** A model that returns a plain object with candidates. *)
Definition candidates_response : pyval :=
  PDict [("candidates", PList [PDict [("content", PStr "Hi there")]; PDict []])].

Definition candidates_model : Services := {|
  verify_id_token := @verify_id_token Demo.services;
  generate_content _ := Ok (Plain candidates_response);
  server_timestamp := @server_timestamp Demo.services;
  auto_id := @auto_id Demo.services;
  utcnow := @utcnow Demo.services |}.

End Demo2.

(** * Properties *)

(** ** The orders of the queries *)

#[global] Instance message_le_total : Total message_le.
Proof.
  intros a b. unfold message_le, message_leb.
  destruct (Z.ltb_spec (m_timestamp a) (m_timestamp b)) as [Hlt | Hge];
    [by left |].
  destruct (Z.ltb_spec (m_timestamp b) (m_timestamp a)) as [Hlt' | Hge'];
    [by right |].
  assert (m_timestamp a = m_timestamp b) as Heq by lia.
  rewrite Heq, Z.eqb_refl. simpl.
  apply String.leb_total.
Qed.

#[global] Instance message_ge_total : Total (flip message_le).
Proof. intros a b. destruct (total message_le a b); [by right | by left]. Qed.

#[global] Instance session_le_total : Total session_le.
Proof.
  intros a b. unfold session_le, session_leb.
  destruct (Z.ltb_spec (s_created_at a.2) (s_created_at b.2)) as [Hlt | Hge];
    [by left |].
  destruct (Z.ltb_spec (s_created_at b.2) (s_created_at a.2)) as [Hlt' | Hge'];
    [by right |].
  assert (s_created_at a.2 = s_created_at b.2) as Heq by lia.
  rewrite Heq, Z.eqb_refl. simpl.
  apply String.leb_total.
Qed.

#[global] Instance session_ge_total : Total (flip session_le).
Proof. intros a b. destruct (total session_le a b); [by right | by left]. Qed.

Lemma message_le_timestamp a b :
  message_le a b -> m_timestamp a <= m_timestamp b.
Proof.
  unfold message_le, message_leb. intros Hab.
  apply orb_true_iff in Hab as [Hlt | Heq].
  - apply Z.ltb_lt in Hlt. lia.
  - apply andb_true_iff in Heq as [Heq _]. apply Z.eqb_eq in Heq. lia.
Qed.

Lemma session_le_created_at a b :
  session_le a b -> s_created_at a.2 <= s_created_at b.2.
Proof.
  unfold session_le, session_leb. intros Hab.
  apply orb_true_iff in Hab as [Hlt | Heq].
  - apply Z.ltb_lt in Hlt. lia.
  - apply andb_true_iff in Heq as [Heq _]. apply Z.eqb_eq in Heq. lia.
Qed.

(** A list sorted for a relation is sorted for any coarser one. *)
Lemma Sorted_weaken {A} (R1 R2 : relation A) (l : list A) :
  (forall x y, R1 x y -> R2 x y) -> Sorted R1 l -> Sorted R2 l.
Proof.
  intros Hsub Hsorted. induction Hsorted as [| x l Hl IH Hhd]; constructor; [done |].
  destruct Hhd; constructor; auto.
Qed.

(** ** [split] *)

Lemma string_app_assoc (a b c : string) : (a +:+ b) +:+ c = a +:+ (b +:+ c).
Proof.
  induction a as [| x a IH]; [reflexivity |].
  change (String x ((a +:+ b) +:+ c) = String x (a +:+ (b +:+ c))). by rewrite IH.
Qed.

Lemma string_app_nil_r (a : string) : a +:+ "" = a.
Proof.
  induction a as [| x a IH]; [reflexivity |].
  change (String x (a +:+ "") = String x a). by rewrite IH.
Qed.

(** Where the separator does not occur, [split] returns the whole string
    as its only piece. *)
Lemma split_from_no_occurrence sep s cur :
  occurs sep s = false -> split_from sep 0 cur s = [cur +:+ s].
Proof.
  revert cur. induction s as [| c s IH]; intros cur Hocc.
  - simpl. by rewrite string_app_nil_r.
  - cbn [occurs] in Hocc. apply orb_false_iff in Hocc as [Hprefix Hrest].
    cbn [split_from]. rewrite Hprefix, (IH _ Hrest).
    by rewrite string_app_assoc.
Qed.

Lemma split_no_occurrence sep s :
  occurs sep s = false -> split s sep = [s].
Proof. intros Hocc. unfold split. by rewrite split_from_no_occurrence. Qed.

Example split_bearer : split "Bearer abc" "Bearer " = [""; "abc"].
Proof. reflexivity. Qed.

Example split_no_bearer : split "Basic abc" "Bearer " = ["Basic abc"].
Proof. reflexivity. Qed.

Example split_two_bearers : split "xBearer a Bearer b" "Bearer " = ["x"; "a "; "b"].
Proof. reflexivity. Qed.

Example split_trailing : split "Bearer " "Bearer " = [""; ""].
Proof. reflexivity. Qed.

(** With exactly the scheme in front, the token is what follows it. *)
Example split_scheme_token : split "Bearer good" "Bearer " !! 1%nat = Some "good".
Proof. reflexivity. Qed.

Lemma split_from_cons sep k cur s :
  exists p l, split_from sep k cur s = p :: l.
Proof.
  revert k cur. induction s as [| c s IH]; intros k cur; [by eexists _, _ |].
  cbn [split_from]. destruct k as [| k]; [| apply IH].
  destruct (String.prefix sep (String c s)); [by eexists _, _ | apply IH].
Qed.

(** Where the separator occurs, [split] returns at least two pieces. *)
Lemma split_from_occurrence sep s cur :
  occurs sep s = true -> exists p, split_from sep 0 cur s !! 1%nat = Some p.
Proof.
  revert cur. induction s as [| c s IH]; intros cur Hocc; [done |].
  cbn [occurs] in Hocc. cbn [split_from].
  destruct (String.prefix sep (String c s)).
  - destruct (split_from_cons sep (Nat.pred (String.length sep)) "" s) as (p & l & ->).
    by exists p.
  - apply IH. by rewrite orb_false_l in Hocc.
Qed.

Lemma split_second_none sep s :
  split s sep !! 1%nat = None <-> occurs sep s = false.
Proof.
  split.
  - intros Hnone. destruct (occurs sep s) eqn:Hocc; [| done].
    destruct (split_from_occurrence sep s "" Hocc) as [p Hp].
    unfold split in Hnone. congruence.
  - intros Hocc. by rewrite split_no_occurrence.
Qed.

(** ** The monad *)

Ltac mrun :=
  unfold mbind, mret, M_bind, M_ret, outcome_bind, outcome_ret, lift, raise,
    emit, get_db, put_db, try_except; simpl.

Lemma bind_ok {A B} (m : M A) (f : A -> M B) w b w' :
  (m ≫= f) w = (Ok b, w') ->
  exists a w1, m w = (Ok a, w1) /\ f a w1 = (Ok b, w').
Proof.
  unfold mbind, M_bind. destruct (m w) as [[a | e] w1]; [| done].
  intros Hf. by exists a, w1.
Qed.


Section Properties.
Context `{Services}.

(** ** The gate *)

Lemma verify_token_authenticated request user w :
  authenticated request user ->
  exists id_token,
    verify_token request w
    = (Ok (Some user), {| db := db w; log := log w ++ [EvVerifyIdToken id_token] |}).
Proof.
  intros (header & id_token & Hheader & Hsplit & Hverify). exists id_token.
  unfold verify_token, call_verify_id_token, index. rewrite Hheader. mrun.
  rewrite Hsplit. simpl. by rewrite Hverify.
Qed.

Lemma verify_token_rejected request w :
  token_rejected request ->
  exists evs,
    verify_token request w = (Ok None, {| db := db w; log := log w ++ evs |})
    /\ Forall (fun e => is_store_event e = false /\ is_inference_event e = false) evs.
Proof.
  intros [Hheader | header Hheader Hocc | header id_token e Hheader Hsplit Hverify];
    unfold verify_token, call_verify_id_token, index; rewrite Hheader; mrun.
  - exists []. rewrite app_nil_r. by destruct w.
  - apply split_second_none in Hocc. rewrite Hocc. simpl.
    exists []. rewrite app_nil_r. by destruct w.
  - rewrite Hsplit. simpl. rewrite Hverify.
    exists [EvVerifyIdToken id_token]. split; [done |]. by repeat constructor.
Qed.

(** The gate lets a request through exactly when it is authenticated, and
    never raises. *)
Lemma verify_token_cases request w :
  (exists user id_token,
      authenticated request user
      /\ verify_token request w
         = (Ok (Some user), {| db := db w; log := log w ++ [EvVerifyIdToken id_token] |}))
  \/ (token_rejected request
      /\ exists evs, verify_token request w = (Ok None, {| db := db w; log := log w ++ evs |})).
Proof.
  destruct (authorization request) as [header |] eqn:Hheader.
  - destruct (split header "Bearer " !! 1%nat) as [id_token |] eqn:Hsplit.
    + destruct (verify_id_token id_token) as [user | e] eqn:Hverify.
      * left. exists user, id_token.
        assert (authenticated request user) as Hauth by by exists header, id_token.
        split; [done |].
        destruct (verify_token_authenticated request user w Hauth) as [id_token' Heq].
        rewrite Heq. unfold verify_token, call_verify_id_token, index in Heq.
        rewrite Hheader in Heq. revert Heq. mrun. rewrite Hsplit. simpl.
        rewrite Hverify. by intros [= <-].
      * right. assert (token_rejected request) as Hrej
          by by eapply verification_failed.
        split; [done |].
        destruct (verify_token_rejected request w Hrej) as (evs & Heq & _). by exists evs.
    + right. assert (token_rejected request) as Hrej.
      { eapply bearer_missing; [done |]. by apply split_second_none. }
      split; [done |].
      destruct (verify_token_rejected request w Hrej) as (evs & Heq & _). by exists evs.
  - right. assert (token_rejected request) as Hrej by by apply header_missing.
    split; [done |].
    destruct (verify_token_rejected request w Hrej) as (evs & Heq & _). by exists evs.
Qed.

(** A request is never both let through and rejected. *)
Lemma authenticated_not_rejected request user :
  authenticated request user -> token_rejected request -> False.
Proof.
  intros (header & id_token & Hheader & Hsplit & Hverify)
    [Hnone | header' Hheader' Hocc | header' id_token' e Hheader' Hsplit' Hverify'].
  - congruence.
  - apply split_second_none in Hocc. congruence.
  - congruence.
Qed.

(** C2. On each of the five routes, a request whose Authorization header
    is missing, carries no bearer token, or carries a token that the
    identity provider refuses, is answered 401 with the body
    [{"error": "Unauthorized"}]; the store is left as it was, and the only
    calls made are to the identity provider: no store operation, no
    inference call. *)
Theorem rejected_token_unauthorized (r : route) (request : request) (w : world) :
  token_rejected request ->
  exists evs,
    handle r request w
    = (Ok {| body := PDict [("error", PStr "Unauthorized")]; status := 401 |},
       {| db := db w; log := log w ++ evs |})
    /\ Forall (fun e => is_store_event e = false /\ is_inference_event e = false) evs.
Proof.
  intros Hrej.
  destruct (verify_token_rejected request w Hrej) as (evs & Hgate & Hevs).
  exists evs. split; [| done].
  destruct r; unfold handle, get_chat_sessions, create_session, get_session_messages,
    delete_session, chat; unfold mbind at 1, M_bind at 1; by rewrite Hgate.
Qed.

(** ** Reading and deleting *)

Lemma get_session_messages_authenticated session_id request user w :
  authenticated request user ->
  exists id_token,
    get_session_messages session_id request w
    = (Ok {| body := PList (map (fun m => PDict (message_to_dict m))
                            (merge_sort message_le (messages_of (db w) (uid user) session_id)));
             status := 200 |},
       {| db := db w;
          log := log w ++ [EvVerifyIdToken id_token;
                           EvMessagesStream (uid user) session_id false None] |}).
Proof.
  intros Hauth.
  destruct (verify_token_authenticated request user w Hauth) as [id_token Hgate].
  exists id_token. unfold get_session_messages, get_session_messages_try.
  unfold mbind at 1, M_bind at 1. rewrite Hgate.
  unfold messages_stream. mrun. by rewrite <- app_assoc.
Qed.

(** C8. An authenticated fetch of the messages of a session returns all the
    messages of that session (a permutation of the stored collection), in
    non-decreasing order of timestamp. *)
Theorem get_session_messages_sorted session_id (request : request) user (w : world) :
  authenticated request user ->
  exists docs w',
    get_session_messages session_id request w
    = (Ok {| body := PList (map (fun m => PDict (message_to_dict m)) docs);
             status := 200 |}, w')
    /\ docs ≡ₚ messages_of (db w) (uid user) session_id
    /\ Sorted (fun a b => m_timestamp a <= m_timestamp b) docs
    /\ db w' = db w.
Proof.
  intros Hauth.
  destruct (get_session_messages_authenticated session_id request user w Hauth)
    as [id_token Hrun].
  eexists _, _. split; [exact Hrun |]. split; [| split; [| done]].
  - apply merge_sort_Permutation.
  - eapply Sorted_weaken; [apply message_le_timestamp |].
    apply (Sorted_merge_sort message_le).
Qed.

Lemma delete_session_authenticated session_id request user w :
  authenticated request user ->
  exists id_token,
    delete_session session_id request w
    = (Ok {| body := PDict [("success", PBool true)]; status := 200 |},
       {| db := {| sessions := delete (uid user, session_id) (sessions (db w));
                   messages := messages (db w);
                   others := others (db w) |};
          log := log w ++ [EvVerifyIdToken id_token;
                           EvSessionDelete (uid user) session_id] |}).
Proof.
  intros Hauth.
  destruct (verify_token_authenticated request user w Hauth) as [id_token Hgate].
  exists id_token. unfold delete_session, delete_session_try.
  unfold mbind at 1, M_bind at 1. rewrite Hgate.
  unfold session_delete. mrun. by rewrite <- app_assoc.
Qed.

(** C7. An authenticated delete removes the named session document of the
    user and nothing else: every other session document, of this user or of
    another, is as before, and so is every collection of messages, that of
    the deleted session included. *)
Theorem delete_session_frame session_id (request : request) user (w : world) :
  authenticated request user ->
  exists w',
    delete_session session_id request w
    = (Ok {| body := PDict [("success", PBool true)]; status := 200 |}, w')
    /\ sessions (db w') !! (uid user, session_id) = None
    /\ (forall k, k <> (uid user, session_id) ->
          sessions (db w') !! k = sessions (db w) !! k)
    /\ messages (db w') = messages (db w).
Proof.
  intros Hauth.
  destruct (delete_session_authenticated session_id request user w Hauth)
    as [id_token Hrun].
  eexists. split; [exact Hrun |]. simpl. split; [| split; [| done]].
  - apply lookup_delete_eq.
  - intros k Hk. by apply lookup_delete_ne.
Qed.

(** The session documents of a user, as the query sees them. *)
Lemma elem_of_sessions_of (s : store) user_id session_id d :
  (session_id, d) ∈ sessions_of s user_id <-> sessions s !! (user_id, session_id) = Some d.
Proof.
  unfold sessions_of. rewrite list_elem_of_omap. split.
  - intros ([[u sid] d'] & Hin & Hsome). simpl in Hsome.
    destruct (decide (u = user_id)) as [-> |]; [| done].
    injection Hsome as -> ->. by apply elem_of_map_to_list in Hin.
  - intros Hlookup. exists ((user_id, session_id), d). split.
    + by apply elem_of_map_to_list.
    + simpl. by rewrite decide_True.
Qed.

Lemma NoDup_sessions_of (s : store) user_id : NoDup (sessions_of s user_id).*1.
Proof.
  unfold sessions_of.
  pose proof (NoDup_fst_map_to_list (sessions s)) as Hnodup.
  induction (map_to_list (sessions s)) as [| [[u sid] d] l IH]; [constructor |].
  simpl in *. apply NoDup_cons in Hnodup as [Hnotin Hnodup].
  destruct (decide (u = user_id)) as [-> |]; simpl; [| by apply IH].
  apply NoDup_cons. split; [| by apply IH].
  intros Hin. apply Hnotin.
  apply list_elem_of_fmap in Hin as ([sid' d'] & -> & Hin).
  apply list_elem_of_omap in Hin as ([[u' sid''] d''] & Hin & Hsome). simpl in Hsome.
  destruct (decide (u' = user_id)) as [-> |]; [| done].
  injection Hsome as -> ->. apply list_elem_of_fmap. by exists ((user_id, sid'), d').
Qed.

Lemma get_chat_sessions_authenticated request user w :
  authenticated request user ->
  exists id_token,
    get_chat_sessions request w
    = (Ok {| body := PList (map session_entry
                            (merge_sort (flip session_le) (sessions_of (db w) (uid user))));
             status := 200 |},
       {| db := db w;
          log := log w ++ [EvVerifyIdToken id_token; EvSessionsStream (uid user)] |}).
Proof.
  intros Hauth.
  destruct (verify_token_authenticated request user w Hauth) as [id_token Hgate].
  exists id_token. unfold get_chat_sessions, get_chat_sessions_try.
  unfold mbind at 1, M_bind at 1. rewrite Hgate.
  unfold sessions_stream. mrun. rewrite <- app_assoc. simpl.
  unfold jsonify. erewrite map_ext; [reflexivity |].
  intros [sid [[n |] t]]; reflexivity.
Qed.

(** C9. An authenticated listing returns one entry for each session
    document of the requesting user and for no other document, newest
    first by [created_at]; an entry carries the id of the session and its
    stored name (a label made from the id when the document stores none). *)
Theorem get_chat_sessions_listing (request : request) user (w : world) :
  authenticated request user ->
  exists docs w',
    get_chat_sessions request w
    = (Ok {| body := PList (map session_entry docs); status := 200 |}, w')
    /\ (forall session_id d,
          (session_id, d) ∈ docs <-> sessions (db w) !! (uid user, session_id) = Some d)
    /\ NoDup docs.*1
    /\ Sorted (fun a b => s_created_at a.2 >= s_created_at b.2) docs
    /\ (forall session_id d n,
          (session_id, d) ∈ docs -> s_name d = Some n ->
          session_entry (session_id, d) = PDict [("id", PStr session_id); ("name", n)])
    /\ db w' = db w.
Proof.
  intros Hauth.
  destruct (get_chat_sessions_authenticated request user w Hauth) as [id_token Hrun].
  eexists _, _. split; [exact Hrun |].
  pose proof (merge_sort_Permutation (flip session_le) (sessions_of (db w) (uid user)))
    as Hperm.
  split; [| split; [| split; [| split; [| done]]]].
  - intros sid d. rewrite Hperm. apply elem_of_sessions_of.
  - rewrite Hperm. apply NoDup_sessions_of.
  - eapply Sorted_weaken; [| apply (Sorted_merge_sort (flip session_le))].
    intros a b Hab. apply session_le_created_at in Hab. lia.
  - intros sid d n _ Hname. unfold session_entry. simpl. by rewrite Hname.
Qed.

(** ** Creating a session *)

(** An id without ["/"] refers to the document of the sessions collection
    that it names. *)
Lemma document_plain (s : store) (id : string) :
  occurs "/" id = false -> document s (PStr id) = Ok (SessionRef id).
Proof. intros Hocc. unfold document. by rewrite split_no_occurrence. Qed.

(** The reference that a non-empty name gives, whatever the name. *)
Lemma create_session_referred request user w name ref :
  authenticated request user ->
  requested_name request = Ok (PStr name) ->
  name <> "" ->
  document (db w) (PStr name) = Ok ref ->
  exists id_token,
    create_session request w
    = (Ok {| body := PDict [("session_id", PStr (ref_id ref)); ("name", PStr name)];
             status := 200 |},
       {| db := with_session (db w) (uid user) ref
                  {| s_name := Some (PStr name);
                     s_created_at := server_timestamp (db w) |};
          log := log w ++ [EvVerifyIdToken id_token;
                           EvSessionSet (uid user) name
                             {| s_name := Some (PStr name);
                                s_created_at := server_timestamp (db w) |}] |}).
Proof.
  intros Hauth Hname Hne Hdoc.
  destruct (verify_token_authenticated request user w Hauth) as [id_token Hgate].
  exists id_token. unfold create_session, create_session_try.
  unfold mbind at 1, M_bind at 1. rewrite Hgate.
  unfold requested_name in Hname. unfold session_set. mrun. rewrite Hname.
  assert (truthy (PStr name) = true) as Htruthy.
  { simpl. destruct (String.eqb_spec name ""); [congruence | done]. }
  unfold py_or. rewrite Htruthy. simpl. rewrite Hdoc. simpl.
  rewrite <- app_assoc. simpl.
  assert (ref_path ref = name) as ->; [| done].
  unfold document in Hdoc.
  destruct (split name "/") as [| x [| y l]]; simpl in Hdoc.
  - done.
  - by injection Hdoc as <-.
  - destruct (Nat.even (length l)); [done | by injection Hdoc as <-].
Qed.

Lemma create_session_named request user w name :
  authenticated request user ->
  requested_name request = Ok (PStr name) ->
  name <> "" ->
  occurs "/" name = false ->
  exists id_token,
    create_session request w
    = (Ok {| body := PDict [("session_id", PStr name); ("name", PStr name)];
             status := 200 |},
       {| db := {| sessions :=
                     <[(uid user, name) :=
                         {| s_name := Some (PStr name);
                            s_created_at := server_timestamp (db w) |}]> (sessions (db w));
                   messages := messages (db w);
                   others := others (db w) |};
          log := log w ++ [EvVerifyIdToken id_token;
                           EvSessionSet (uid user) name
                             {| s_name := Some (PStr name);
                                s_created_at := server_timestamp (db w) |}] |}).
Proof.
  intros Hauth Hname Hne Hocc.
  apply (create_session_referred request user w name (SessionRef name)); try done.
  by apply document_plain.
Qed.

(** The run of [create_session] on a request that passes the gate. *)
Lemma create_session_run request user w :
  authenticated request user ->
  exists id_token,
    let w0 := {| db := db w; log := (log w ++ [EvVerifyIdToken id_token])%list |} in
    create_session request w =
    match requested_name request with
    | Raise e => (Ok (route_error e), w0)
    | Ok v =>
        match document (db w) (if truthy v then v else PNone) with
        | Raise e => (Ok (route_error e), w0)
        | Ok ref =>
            let name := py_or v (PStr ("Chat - " +:+ strftime_minute utcnow)) in
            let doc := {| s_name := Some name; s_created_at := server_timestamp (db w) |} in
            (Ok {| body := PDict [("session_id", PStr (ref_id ref)); ("name", name)];
                   status := 200 |},
             {| db := with_session (db w) (uid user) ref doc;
                log := (log w ++ [EvVerifyIdToken id_token;
                                  EvSessionSet (uid user) (ref_path ref) doc])%list |})
        end
    end.
Proof.
  intros Hauth.
  destruct (verify_token_authenticated request user w Hauth) as [id_token Hgate].
  exists id_token. intros w0. unfold create_session, create_session_try.
  unfold mbind at 1, M_bind at 1. rewrite Hgate.
  unfold requested_name. unfold session_set. mrun.
  destruct (py_get (py_or (json request) (PDict [])) "session_name" PNone) as [v | e];
    simpl; [| reflexivity].
  unfold py_or.
  destruct (truthy v); cbn beta iota;
    match goal with
    | |- context [document (db w) ?x] => destruct (document (db w) x) as [ref | e]
    end; simpl; try reflexivity; by rewrite <- app_assoc.
Qed.

Lemma create_session_unnamed request user w v :
  authenticated request user ->
  requested_name request = Ok v ->
  truthy v = false ->
  exists id_token,
    create_session request w
    = (Ok {| body := PDict [("session_id", PStr (auto_id (db w)));
                            ("name", PStr ("Chat - " +:+ strftime_minute utcnow))];
             status := 200 |},
       {| db := {| sessions :=
                     <[(uid user, auto_id (db w)) :=
                         {| s_name := Some (PStr ("Chat - " +:+ strftime_minute utcnow));
                            s_created_at := server_timestamp (db w) |}]> (sessions (db w));
                   messages := messages (db w);
                   others := others (db w) |};
          log := log w ++ [EvVerifyIdToken id_token;
                           EvSessionSet (uid user) (auto_id (db w))
                             {| s_name := Some (PStr ("Chat - " +:+ strftime_minute utcnow));
                                s_created_at := server_timestamp (db w) |}] |}).
Proof.
  intros Hauth Hname Hfalsy.
  destruct (verify_token_authenticated request user w Hauth) as [id_token Hgate].
  exists id_token. unfold create_session, create_session_try.
  unfold mbind at 1, M_bind at 1. rewrite Hgate.
  unfold requested_name in Hname. unfold session_set. mrun. rewrite Hname.
  unfold py_or. rewrite Hfalsy. simpl. by rewrite <- app_assoc.
Qed.

(** C6, as the code has it.  An authenticated create-session request that
    supplies a session name that is a non-empty string without ["/"]
    stores the session document under that very name, so that a lookup
    under the name finds it, and answers with the name as both
    [session_id] and [name].  When no name is supplied, or the supplied
    value is empty, the document is stored under a generated id with the
    name ["Chat - "] followed by the UTC time to the minute, and the answer
    carries that id and that name. *)
Theorem create_session_key (request : request) user (w : world) v :
  authenticated request user ->
  requested_name request = Ok v ->
  (forall name, v = PStr name -> name <> "" -> occurs "/" name = false ->
     exists w',
       create_session request w
       = (Ok {| body := PDict [("session_id", PStr name); ("name", PStr name)];
                status := 200 |}, w')
       /\ sessions (db w') !! (uid user, name)
          = Some {| s_name := Some (PStr name); s_created_at := server_timestamp (db w) |})
  /\ (truthy v = false ->
      let label := "Chat - " +:+ strftime_minute utcnow in
      exists w',
        create_session request w
        = (Ok {| body := PDict [("session_id", PStr (auto_id (db w))); ("name", PStr label)];
                 status := 200 |}, w')
        /\ sessions (db w') !! (uid user, auto_id (db w))
           = Some {| s_name := Some (PStr label); s_created_at := server_timestamp (db w) |}).
Proof.
  intros Hauth Hname. split.
  - intros name -> Hne Hocc.
    destruct (create_session_named request user w name Hauth Hname Hne Hocc)
      as [id_token Hrun].
    eexists. split; [exact Hrun |]. simpl. apply lookup_insert_eq.
  - intros Hfalsy label.
    destruct (create_session_unnamed request user w v Hauth Hname Hfalsy) as [id_token Hrun].
    eexists. split; [exact Hrun |]. simpl. apply lookup_insert_eq.
Qed.

(** ** The chat handler *)

Lemma history_turn_remap doc :
  history_turn doc = {| role := remap_role (m_role doc); parts := [m_content doc] |}.
Proof. reflexivity. Qed.

(** Inserting each fetched document at the front reverses the fetch. *)
Lemma fold_insert_front {A B} (f : A -> B) (l : list A) (acc : list B) :
  fold_left (fun history doc => f doc :: history) l acc = (rev (map f l) ++ acc)%list.
Proof.
  revert acc. induction l as [| x l IH]; intros acc; [done |].
  simpl. rewrite IH. by rewrite <- app_assoc.
Qed.

Lemma build_history_reversed history_docs :
  build_history history_docs
  = map (fun m => {| role := remap_role (m_role m); parts := [m_content m] |})
        (rev history_docs).
Proof.
  unfold build_history. rewrite fold_insert_front, app_nil_r, map_rev.
  f_equal.
Qed.

Lemma messages_of_with_message s user_id session_id d :
  messages_of (with_message s user_id session_id d) user_id session_id
  = (messages_of s user_id session_id ++ [d])%list.
Proof. unfold messages_of at 1, with_message. simpl. by rewrite lookup_insert_eq. Qed.

Lemma system_prompts_item_general : system_prompts_item "general" = Ok general_prompt.
Proof. reflexivity. Qed.

Lemma truthy_str (s : string) : s <> "" -> truthy (PStr s) = true.
Proof. intros Hne. simpl. by destruct (String.eqb_spec s ""). Qed.

(** The run of [chat] on a request that passes the gate and the check of
    the required fields, step by step. *)
Lemma chat_run request user w d :
  authenticated request user ->
  json request = PDict d ->
  truthy (dict_get d "message" PNone) = true ->
  truthy (dict_get d "session_id" PNone) = true ->
  let user_message := dict_get d "message" PNone in
  let mode := dict_get d "mode" (PStr "general") in
  exists id_token,
    let w0 := {| db := db w; log := (log w ++ [EvVerifyIdToken id_token])%list |} in
    chat request w =
    match document (db w) (dict_get d "session_id" PNone) with
    | Raise e => (Ok (chat_error e), w0)
    | Ok ref =>
        let sid := ref_path ref in
        match field_value (Plain user_message) with
        | Raise e => (Ok (chat_error e), w0)
        | Ok _ =>
            let d_user := added_message (db w) "user" user_message in
            let s1 := with_message (db w) (uid user) sid d_user in
            let stored := (messages_of (db w) (uid user) sid ++ [d_user])%list in
            let log1 := (log w ++ [EvVerifyIdToken id_token;
                                   EvMessageAdd (uid user) sid d_user;
                                   EvMessagesStream (uid user) sid true (Some 20%nat)])%list in
            match system_prompts_get mode general_prompt with
            | Raise e => (Ok (chat_error e), {| db := s1; log := log1 |})
            | Ok instruction =>
                let conversation := spec_conversation instruction stored in
                let log2 := (log1 ++ [EvGenerateContent conversation])%list in
                match generate_content conversation ≫= reply_text with
                | Raise e => (Ok (chat_error e), {| db := s1; log := log2 |})
                | Ok (Object t) =>
                    (Ok (chat_error (TypeError "Cannot convert to a Firestore Value")),
                     {| db := s1; log := log2 |})
                | Ok (Plain a) =>
                    if encodable a then
                      let d_ai := added_message s1 "assistant" a in
                      (Ok {| body := PDict [("response", a)]; status := 200 |},
                       {| db := with_message s1 (uid user) sid d_ai;
                          log := (log2 ++ [EvMessageAdd (uid user) sid d_ai])%list |})
                    else
                      (Ok (chat_error (ValueError "Value out of range")),
                       {| db := s1; log := log2 |})
                end
            end
        end
    end.
Proof.
  intros Hauth Hjson Hmessage Hsession user_message mode.
  destruct (verify_token_authenticated request user w Hauth) as [id_token Hgate].
  exists id_token. intros w0. unfold chat.
  unfold mbind at 1, M_bind at 1. rewrite Hgate, Hjson.
  cbn [py_get]. fold mode user_message.
  unfold chat_try. rewrite system_prompts_item_general.
  unfold message_add, messages_stream, call_generate_content.
  unfold mbind, M_bind, lift, emit, get_db, put_db, try_except, mret, M_ret.
  cbn beta iota. unfold user_message at 1. rewrite Hmessage, Hsession.
  cbn [negb orb db log].
  destruct (document (db w) (dict_get d "session_id" PNone)) as [ref | e]; [| reflexivity].
  cbn beta iota zeta.
  unfold field_value at 1 3.
  destruct (encodable user_message); [| reflexivity].
  cbn beta iota. cbn [db log].
  set (sid := ref_path ref).
  set (d_user := added_message (db w) "user" user_message).
  rewrite messages_of_with_message.
  set (s1 := with_message (db w) (uid user) sid d_user).
  set (stored := (messages_of (db w) (uid user) sid ++ [d_user])%list).
  rewrite build_history_reversed.
  change (limit_to (Some 20%nat) (order_by_timestamp true stored))
    with (take 20 (newest_first stored)).
  destruct (system_prompts_get mode general_prompt) as [instruction | e];
    [| rewrite <- !app_assoc; reflexivity].
  fold (spec_conversation instruction stored).
  unfold mbind, outcome_bind.
  destruct (generate_content (spec_conversation instruction stored)) as [response | e];
    [| rewrite <- !app_assoc; reflexivity].
  destruct (reply_text response) as [[a | t] | e];
    cbn [field_value json_value]; cbn beta iota;
    [destruct (encodable a) | |]; cbn beta iota; rewrite <- !app_assoc; reflexivity.
Qed.

(** The same, for a session id without ["/"] and a message that the store
    encodes. *)
Lemma chat_accepted request user w d user_message sid :
  authenticated request user ->
  json request = PDict d ->
  dict_get d "message" PNone = user_message ->
  truthy user_message = true ->
  encodable user_message = true ->
  dict_get d "session_id" PNone = PStr sid ->
  sid <> "" ->
  occurs "/" sid = false ->
  let mode := dict_get d "mode" (PStr "general") in
  let d_user := added_message (db w) "user" user_message in
  let s1 := with_message (db w) (uid user) sid d_user in
  let stored := (messages_of (db w) (uid user) sid ++ [d_user])%list in
  exists id_token,
    let log1 := (log w ++ [EvVerifyIdToken id_token;
                           EvMessageAdd (uid user) sid d_user;
                           EvMessagesStream (uid user) sid true (Some 20%nat)])%list in
    chat request w =
    match system_prompts_get mode general_prompt with
    | Raise e => (Ok (chat_error e), {| db := s1; log := log1 |})
    | Ok instruction =>
        let conversation := spec_conversation instruction stored in
        let log2 := (log1 ++ [EvGenerateContent conversation])%list in
        match generate_content conversation ≫= reply_text with
        | Raise e => (Ok (chat_error e), {| db := s1; log := log2 |})
        | Ok (Object t) =>
            (Ok (chat_error (TypeError "Cannot convert to a Firestore Value")),
             {| db := s1; log := log2 |})
        | Ok (Plain a) =>
            if encodable a then
              let d_ai := added_message s1 "assistant" a in
              (Ok {| body := PDict [("response", a)]; status := 200 |},
               {| db := with_message s1 (uid user) sid d_ai;
                  log := (log2 ++ [EvMessageAdd (uid user) sid d_ai])%list |})
            else
              (Ok (chat_error (ValueError "Value out of range")),
               {| db := s1; log := log2 |})
        end
    end.
Proof.
  intros Hauth Hjson Hmessage Htruthy Henc Hsession Hsid Hocc mode d_user s1 stored.
  destruct (chat_run request user w d Hauth Hjson) as [id_token Hrun].
  { by rewrite Hmessage. }
  { rewrite Hsession. by apply truthy_str. }
  exists id_token. cbv zeta in Hrun. rewrite Hrun.
  rewrite Hsession, (document_plain (db w) sid Hocc), Hmessage.
  unfold field_value. rewrite Henc. reflexivity.
Qed.

(** A string is a value of the store. *)
Lemma encodable_str (s : string) : encodable (PStr s) = true.
Proof. reflexivity. Qed.

(** A chat request that passes the gate with a JSON object for body but
    without a message or a session id is answered 400 before anything is
    read or written. *)
Lemma chat_missing_fields request user w d :
  authenticated request user ->
  json request = PDict d ->
  truthy (dict_get d "message" PNone) = false
  \/ truthy (dict_get d "session_id" PNone) = false ->
  exists id_token,
    chat request w
    = (Ok {| body := PDict [("error", PStr "Message and session_id are required")];
             status := 400 |},
       {| db := db w; log := log w ++ [EvVerifyIdToken id_token] |}).
Proof.
  intros Hauth Hjson Hmissing.
  destruct (verify_token_authenticated request user w Hauth) as [id_token Hgate].
  exists id_token. unfold chat.
  unfold mbind at 1, M_bind at 1. rewrite Hgate, Hjson. mrun.
  destruct Hmissing as [-> | ->]; [done |].
  by rewrite orb_true_r.
Qed.

(** [data.get] is outside the [try]: with a body that is not a JSON object
    the handler raises instead of answering. *)
Lemma chat_body_not_dict request user w :
  authenticated request user ->
  (forall d, json request <> PDict d) ->
  exists id_token,
    chat request w
    = (Raise (AttributeError (type_name (json request)) "get"),
       {| db := db w; log := log w ++ [EvVerifyIdToken id_token] |}).
Proof.
  intros Hauth Hjson.
  destruct (verify_token_authenticated request user w Hauth) as [id_token Hgate].
  exists id_token. unfold chat.
  unfold mbind at 1, M_bind at 1. rewrite Hgate.
  destruct (json request) as [| | | | | |d] eqn:Hbody; try reflexivity.
  by destruct (Hjson d).
Qed.

Lemma sent_conversations_app evs1 evs2 :
  sent_conversations (evs1 ++ evs2)
  = (sent_conversations evs1 ++ sent_conversations evs2)%list.
Proof. apply omap_app. Qed.

Lemma sent_conversations_none evs :
  Forall (fun e => is_inference_event e = false) evs -> sent_conversations evs = [].
Proof.
  induction 1 as [| e evs He _ IH]; [done |].
  by destruct e.
Qed.

Lemma sent_conversations_snoc evs e :
  is_inference_event e = false ->
  sent_conversations (evs ++ [e]) = sent_conversations evs.
Proof.
  intros He. rewrite sent_conversations_app, (sent_conversations_none [e]).
  - apply app_nil_r.
  - by constructor.
Qed.

(** C3. Whatever a chat request is, it hands the model no conversation, or
    exactly one, and that one is: the instruction turn of the selected
    instruction, the canned acknowledgement turn, then the most recent
    twenty (at most) messages stored for the session when the history is
    fetched, the message just written included: fetched newest first, put
    back in chronological order, the stored role ["assistant"] renamed
    ["model"] and every other role ["user"].  An authenticated request
    whose message is a non-empty string, whose session id is a non-empty
    string without ["/"] and whose mode selects an instruction does hand
    the model that conversation. *)
Theorem chat_conversation (request : request) (w : world) :
  (forall out w',
     chat request w = (out, w') ->
     sent_conversations (log w') = sent_conversations (log w)
     \/ exists user d ref instruction,
          authenticated request user
          /\ json request = PDict d
          /\ document (db w) (dict_get d "session_id" PNone) = Ok ref
          /\ system_prompts_get (dict_get d "mode" (PStr "general")) general_prompt
             = Ok instruction
          /\ sent_conversations (log w')
             = (sent_conversations (log w)
                ++ [spec_conversation instruction
                      (messages_of (db w) (uid user) (ref_path ref)
                       ++ [added_message (db w) "user" (dict_get d "message" PNone)])])%list)
  /\ (forall user d message sid instruction,
        authenticated request user ->
        json request = PDict d ->
        dict_get d "message" PNone = PStr message ->
        message <> "" ->
        dict_get d "session_id" PNone = PStr sid ->
        sid <> "" ->
        occurs "/" sid = false ->
        system_prompts_get (dict_get d "mode" (PStr "general")) general_prompt
        = Ok instruction ->
        exists resp w',
          chat request w = (Ok resp, w')
          /\ sent_conversations (log w')
             = (sent_conversations (log w)
                ++ [spec_conversation instruction
                      (messages_of (db w) (uid user) sid
                       ++ [added_message (db w) "user" (PStr message)])])%list).
Proof.
  split.
  - intros out w' Hrun.
    destruct (verify_token_cases request w)
      as [(user & id_token & Hauth & _) | (Hrej & _)].
    + destruct (json request) as [| b | n | t | ts | l | d] eqn:Hjson.
      1-6: left;
        destruct (chat_body_not_dict request user w Hauth) as [? Heq];
        [intros d'; rewrite Hjson; discriminate |];
        rewrite Heq in Hrun; injection Hrun as _ <-; cbn [log];
        by apply sent_conversations_snoc.
      destruct (truthy (dict_get d "message" PNone)) eqn:Hmessage;
        [destruct (truthy (dict_get d "session_id" PNone)) eqn:Hsession |].
      * destruct (chat_run request user w d Hauth Hjson Hmessage Hsession)
          as [id_token' Heq].
        cbv zeta in Heq. rewrite Heq in Hrun. clear Heq.
        destruct (document (db w) (dict_get d "session_id" PNone)) as [ref | e] eqn:Hdoc.
        2: { left. injection Hrun as _ <-. cbn [log]. by apply sent_conversations_snoc. }
        destruct (field_value (Plain (dict_get d "message" PNone))) as [v | e].
        2: { left. injection Hrun as _ <-. cbn [log]. by apply sent_conversations_snoc. }
        destruct (system_prompts_get (dict_get d "mode" (PStr "general")) general_prompt)
          as [instruction | e] eqn:Hmode.
        2: { left. injection Hrun as _ <-. cbn [log].
             rewrite sent_conversations_app. cbn. by rewrite app_nil_r. }
        right. exists user, d, ref, instruction. do 4 (split; [done |]).
        destruct (generate_content _ ≫= reply_text) as [[a | t'] | e];
          [destruct (encodable a) | |];
          injection Hrun as _ <-; cbn [log];
          rewrite !sent_conversations_app; cbn; by rewrite !app_nil_r.
      * left. destruct (chat_missing_fields request user w d Hauth Hjson) as [? Heq];
          [by right |].
        rewrite Heq in Hrun. injection Hrun as _ <-. cbn [log].
        by apply sent_conversations_snoc.
      * left. destruct (chat_missing_fields request user w d Hauth Hjson) as [? Heq];
          [by left |].
        rewrite Heq in Hrun. injection Hrun as _ <-. cbn [log].
        by apply sent_conversations_snoc.
    + left. destruct (verify_token_rejected request w Hrej) as (evs & Hgate & Hevs).
      unfold chat in Hrun. unfold mbind at 1, M_bind at 1 in Hrun. rewrite Hgate in Hrun.
      injection Hrun as _ <-. cbn [log].
      rewrite sent_conversations_app, (sent_conversations_none evs), app_nil_r; [done |].
      eapply Forall_impl; [exact Hevs |]. by intros e [_ He].
  - intros user d message sid instruction Hauth Hjson Hmessage Hne Hsession Hsid Hocc Hmode.
    destruct (chat_accepted request user w d (PStr message) sid
                Hauth Hjson Hmessage (truthy_str message Hne) (encodable_str message)
                Hsession Hsid Hocc) as [id_token Hrun].
    cbv zeta in Hrun. rewrite Hmode in Hrun. rewrite Hrun. clear Hrun.
    destruct (generate_content _ ≫= reply_text) as [[a | t] | e];
      [destruct (encodable a) | |];
      eexists _, _; (split; [reflexivity |]); cbn [log];
      rewrite !sent_conversations_app; cbn; by rewrite !app_nil_r.
Qed.

(** C1, as the code has it.  An authenticated chat request whose message is
    a non-empty string and whose session id is a non-empty string without
    ["/"] first appends one message with role ["user"] and the request's
    message to the collection of the session.  When the model then returns
    a reply with a text, one message with role ["assistant"] and the text
    as content is appended after it and the text is returned; when the call
    to the model raises, nothing more is written and the answer is a 500
    with the exception's message.  In every case at most one message
    follows the user's, the session documents and the other collections of
    messages are untouched. *)
Theorem chat_persists (request : request) user (w : world) d message sid :
  authenticated request user ->
  json request = PDict d ->
  dict_get d "message" PNone = PStr message ->
  message <> "" ->
  dict_get d "session_id" PNone = PStr sid ->
  sid <> "" ->
  occurs "/" sid = false ->
  let mode := dict_get d "mode" (PStr "general") in
  let d_user := added_message (db w) "user" (PStr message) in
  let old := messages_of (db w) (uid user) sid in
  let s1 := with_message (db w) (uid user) sid d_user in
  exists resp w',
    chat request w = (Ok resp, w')
    /\ sessions (db w') = sessions (db w)
    /\ (forall k, k <> (uid user, sid) -> messages (db w') !! k = messages (db w) !! k)
    /\ (forall instruction response text,
          system_prompts_get mode general_prompt = Ok instruction ->
          generate_content (spec_conversation instruction (old ++ [d_user])) = Ok response ->
          reply_text response = Ok (Plain (PStr text)) ->
          resp = {| body := PDict [("response", PStr text)]; status := 200 |}
          /\ messages_of (db w') (uid user) sid
             = (old ++ [d_user; added_message s1 "assistant" (PStr text)])%list)
    /\ (forall instruction e,
          system_prompts_get mode general_prompt = Ok instruction ->
          generate_content (spec_conversation instruction (old ++ [d_user])) = Raise e ->
          resp = chat_error e
          /\ messages_of (db w') (uid user) sid = (old ++ [d_user])%list)
    /\ (exists tail,
          messages_of (db w') (uid user) sid = (old ++ d_user :: tail)%list
          /\ (tail = [] \/ exists reply, tail = [added_message s1 "assistant" reply])).
Proof.
  intros Hauth Hjson Hmessage Hne Hsession Hsid Hocc mode d_user old s1.
  destruct (chat_accepted request user w d (PStr message) sid
              Hauth Hjson Hmessage (truthy_str message Hne) (encodable_str message)
              Hsession Hsid Hocc)
    as [id_token Hrun].
  cbv zeta in Hrun. fold mode d_user s1 old in Hrun. rewrite Hrun. clear Hrun.
  assert (messages_of s1 (uid user) sid = (old ++ [d_user])%list) as Hs1
    by apply messages_of_with_message.
  assert (forall k, k <> (uid user, sid) -> messages s1 !! k = messages (db w) !! k) as Hframe1.
  { intros k Hk. unfold s1, with_message. simpl. by rewrite lookup_insert_ne. }
  assert (forall a, messages_of (with_message s1 (uid user) sid (added_message s1 "assistant" a))
                      (uid user) sid
                    = (old ++ [d_user; added_message s1 "assistant" a])%list) as Hs2.
  { intros a. rewrite messages_of_with_message, Hs1. by rewrite <- app_assoc. }
  assert (forall a k, k <> (uid user, sid) ->
            messages (with_message s1 (uid user) sid (added_message s1 "assistant" a)) !! k
            = messages (db w) !! k) as Hframe2.
  { intros a k Hk. unfold with_message at 1. simpl. rewrite lookup_insert_ne by done.
    by apply Hframe1. }
  destruct (system_prompts_get mode general_prompt) as [instruction | e0].
  - unfold mbind, outcome_bind.
    destruct (generate_content (spec_conversation instruction (old ++ [d_user])))
      as [response | e] eqn:Hgen.
    + destruct (reply_text response) as [[a | t] | e] eqn:Hreply;
        [destruct (encodable a) eqn:Henc | |];
        eexists _, _; (split; [reflexivity |]); cbn [db];
        (split; [reflexivity |]).
      * split; [by apply Hframe2 |]. split; [| split].
        -- intros ? ? text [= <-]. rewrite Hgen. intros [= <-]. rewrite Hreply.
           intros [= <-]. by rewrite Hs2.
        -- intros ? ? [= <-]. by rewrite Hgen.
        -- exists [added_message s1 "assistant" a]. rewrite Hs2. split; [done |].
           right. by exists a.
      * split; [done |]. split; [| split].
        -- intros ? ? text [= <-]. rewrite Hgen. intros [= <-]. rewrite Hreply.
           intros [= ->]. done.
        -- intros ? ? [= <-]. by rewrite Hgen.
        -- exists []. rewrite Hs1. split; [done |]. by left.
      * split; [done |]. split; [| split].
        -- intros ? ? reply [= <-]. rewrite Hgen. intros [= <-]. by rewrite Hreply.
        -- intros ? ? [= <-]. by rewrite Hgen.
        -- exists []. rewrite Hs1. split; [done |]. by left.
      * split; [done |]. split; [| split].
        -- intros ? ? reply [= <-]. rewrite Hgen. intros [= <-]. by rewrite Hreply.
        -- intros ? ? [= <-]. by rewrite Hgen.
        -- exists []. rewrite Hs1. split; [done |]. by left.
    + eexists _, _. split; [reflexivity |]. cbn [db]. split; [reflexivity |].
      split; [done |]. split; [| split].
      * intros ? ? reply [= <-]. by rewrite Hgen.
      * intros ? e' [= <-]. rewrite Hgen. intros [= <-]. by rewrite Hs1.
      * exists []. rewrite Hs1. split; [done |]. by left.
  - eexists _, _. split; [reflexivity |]. cbn [db]. split; [reflexivity |].
    split; [done |]. split; [| split]; [done | done |].
    exists []. rewrite Hs1. split; [done |]. by left.
Qed.

(** ** The instruction of a mode *)

Lemma system_prompts_get_string m :
  system_prompts_get (PStr m) general_prompt = Ok (default "" (spec_instruction (Some m))).
Proof.
  unfold system_prompts_get, spec_instruction. cbn [hashable]. f_equal.
  unfold SYSTEM_PROMPTS at 1. cbn [assoc].
  destruct (String.eqb m "coding_coach"); [reflexivity |].
  destruct (String.eqb m "debugging_assistant"); [reflexivity |].
  destruct (String.eqb m "general"); reflexivity.
Qed.

(** A mode that is a string names its instruction when it is one of the
    three of the table, and the general one otherwise. *)
Lemma system_prompts_get_known m :
  m = "coding_coach" \/ m = "debugging_assistant" \/ m = "general" ->
  exists p, assoc m SYSTEM_PROMPTS = Some p /\ system_prompts_get (PStr m) general_prompt = Ok p.
Proof. intros [-> | [-> | ->]]; eexists; split; reflexivity. Qed.

Lemma system_prompts_get_unknown m :
  m <> "coding_coach" -> m <> "debugging_assistant" -> m <> "general" ->
  system_prompts_get (PStr m) general_prompt = Ok general_prompt.
Proof.
  intros H1 H2 H3. rewrite system_prompts_get_string. unfold spec_instruction.
  destruct (String.eqb_spec m "coding_coach"); [done |].
  destruct (String.eqb_spec m "debugging_assistant"); [done |]. reflexivity.
Qed.

(** A hashable mode that is not a string selects the general instruction;
    so does a request without the field. *)
Lemma system_prompts_get_other mode :
  hashable mode = true -> (forall m, mode <> PStr m) ->
  system_prompts_get mode general_prompt = Ok general_prompt.
Proof.
  intros Hhash Hstr. unfold system_prompts_get. rewrite Hhash.
  destruct mode; try reflexivity. by destruct (Hstr s).
Qed.

Lemma mode_absent d :
  assoc "mode" d = None ->
  system_prompts_get (dict_get d "mode" (PStr "general")) general_prompt = Ok general_prompt.
Proof. intros Habsent. unfold dict_get. by rewrite Habsent. Qed.

(** A list or an object for mode is not hashable: the lookup raises. *)
Lemma system_prompts_get_unhashable mode :
  hashable mode = false ->
  system_prompts_get mode general_prompt
  = Raise (TypeError ("unhashable type: '" +:+ type_name mode +:+ "'")).
Proof. intros Hhash. unfold system_prompts_get. by rewrite Hhash. Qed.

(** ** Error responses *)

(** Past the gate, [chat] reads the three fields of a JSON object, checks
    the two required ones and runs its [try] block. *)
Lemma chat_checked request user w d w0 :
  verify_token request w = (Ok (Some user), w0) ->
  json request = PDict d ->
  chat request w =
  if negb (truthy (dict_get d "message" PNone))
     || negb (truthy (dict_get d "session_id" PNone))
  then (Ok {| body := PDict [("error", PStr "Message and session_id are required")];
              status := 400 |}, w0)
  else try_except
         (chat_try (uid user) (dict_get d "message" PNone)
            (dict_get d "mode" (PStr "general")) (dict_get d "session_id" PNone))
         (fun e => mret (chat_error e)) w0.
Proof.
  intros Hgate Hjson. unfold chat.
  unfold mbind at 1, M_bind at 1. rewrite Hgate, Hjson. cbn [py_get].
  unfold mbind, M_bind, lift. cbn beta iota.
  by destruct (negb _ || negb _).
Qed.




End Properties.

(** ** The handlers at work *)

Lemma demo_authenticated b :
  authenticated (H := Demo.services) (Demo.post b) {| uid := "alice" |}.
Proof. exists "Bearer good", "good". repeat split; reflexivity. Qed.

Example chat_hello :
  exists w',
    chat (H := Demo.services) (Demo.post Demo.hello) Demo.empty_world
    = (Ok {| body := PDict [("response", PStr "Hello")]; status := 200 |}, w')
    /\ messages_of (db w') "alice" "s1"
       = [Demo.msg "doc0" "user" "hi" 0; Demo.msg "doc1" "assistant" "Hello" 1].
Proof. eexists. split; vm_compute; reflexivity. Qed.

(** C1 does not hold as stated: when the call to the model raises, the
    user's message has been written and no assistant message follows. *)
Lemma chat_model_failure_counterexample :
  exists resp w',
    authenticated (H := Demo.failing_model) (Demo.post Demo.hello) {| uid := "alice" |}
    /\ chat (H := Demo.failing_model) (Demo.post Demo.hello) Demo.empty_world = (Ok resp, w')
    /\ status resp = 500%nat
    /\ messages_of (db w') "alice" "s1" = [Demo.msg "doc0" "user" "hi" 0].
Proof.
  eexists _, _. split; [| split; [vm_compute; reflexivity | split; reflexivity]].
  exists "Bearer good", "good". repeat split; reflexivity.
Qed.


(** C6 does not hold as stated: a session name that is supplied but empty
    is not used as the key; the document goes under a generated id, with
    the timestamped label for name, and nothing is stored under the
    supplied name. *)
Lemma create_session_empty_name_counterexample :
  exists w',
    requested_name (Demo.post (PDict [("session_name", PStr "")])) = Ok (PStr "")
    /\ create_session (H := Demo.services)
         (Demo.post (PDict [("session_name", PStr "")])) Demo.empty_world
       = (Ok {| body := PDict [("session_id", PStr "doc0");
                               ("name", PStr "Chat - 2024-03-07 09:05")];
                status := 200 |}, w')
    /\ sessions (db w') !! ("alice", "") = None.
Proof. eexists. split; [reflexivity |]. split; vm_compute; reflexivity. Qed.

(** C5 fails on the code: an authenticated chat request whose JSON body is
    [null] has no message and no session id, and is not answered 400: the
    handler raises [AttributeError] on [data.get], outside its [try].  The
    store is untouched. *)
Theorem chat_null_body_raises :
  chat (H := Demo.services) (Demo.post PNone) Demo.empty_world
  = (Raise (Exn "AttributeError" "'NoneType' object has no attribute 'get'"),
     {| db := db Demo.empty_world; log := [EvVerifyIdToken "good"] |}).
Proof. vm_compute. reflexivity. Qed.

(** C10 fails on the code: with a mode that is a JSON array, no instruction
    is selected; the lookup in the table raises, the request is answered
    500 after the user's message was stored, and no conversation reaches
    the model. *)
Theorem chat_unhashable_mode_fails :
  exists w',
    chat (H := Demo.services)
      (Demo.post (PDict [("message", PStr "hi"); ("session_id", PStr "s1");
                         ("mode", PList [])])) Demo.empty_world
    = (Ok {| body := PDict [("error", PStr "An error occurred.");
                            ("details", PStr "unhashable type: 'list'")];
             status := 500 |}, w')
    /\ sent_conversations (log w') = []
    /\ messages_of (db w') "alice" "s1" = [Demo.msg "doc0" "user" "hi" 0].
Proof. eexists. split; [| split]; vm_compute; reflexivity. Qed.

(** ** Instances of the theorems in the demo world *)

Lemma chat_persists_witness :
  let d_user := added_message (H := Demo.services) Demo.busy_store "user" (PStr "hi") in
  let old := messages_of Demo.busy_store "alice" "s1" in
  let s1 := with_message Demo.busy_store "alice" "s1" d_user in
  exists resp w',
    chat (H := Demo.services) (Demo.post Demo.hello) Demo.busy_world = (Ok resp, w')
    /\ sessions (db w') = sessions Demo.busy_store
    /\ (forall k, k <> ("alice", "s1") ->
          messages (db w') !! k = messages Demo.busy_store !! k)
    /\ (forall instruction response text,
          system_prompts_get (PStr "general") general_prompt = Ok instruction ->
          generate_content (Services := Demo.services)
            (spec_conversation instruction (old ++ [d_user])) = Ok response ->
          reply_text response = Ok (Plain (PStr text)) ->
          resp = {| body := PDict [("response", PStr text)]; status := 200 |}
          /\ messages_of (db w') "alice" "s1"
             = (old ++ [d_user;
                        added_message (H := Demo.services) s1 "assistant" (PStr text)])%list)
    /\ (forall instruction e,
          system_prompts_get (PStr "general") general_prompt = Ok instruction ->
          generate_content (Services := Demo.services)
            (spec_conversation instruction (old ++ [d_user])) = Raise e ->
          resp = chat_error e
          /\ messages_of (db w') "alice" "s1" = (old ++ [d_user])%list)
    /\ (exists tail,
          messages_of (db w') "alice" "s1" = (old ++ d_user :: tail)%list
          /\ (tail = []
              \/ exists reply,
                   tail = [added_message (H := Demo.services) s1 "assistant" reply])).
Proof.
  apply (chat_persists (H := Demo.services) (Demo.post Demo.hello) {| uid := "alice" |}
           Demo.busy_world [("message", PStr "hi"); ("session_id", PStr "s1")] "hi" "s1").
  - exists "Bearer good", "good". repeat split; reflexivity.
  - reflexivity.
  - reflexivity.
  - discriminate.
  - reflexivity.
  - discriminate.
  - reflexivity.
Defined.

Lemma rejected_token_unauthorized_witness :
  exists evs,
    handle (H := Demo.services) Chat
      {| authorization := Some "Basic good"; json := Demo.hello |} Demo.busy_world
    = (Ok {| body := PDict [("error", PStr "Unauthorized")]; status := 401 |},
       {| db := db Demo.busy_world; log := log Demo.busy_world ++ evs |})
    /\ Forall (fun e => is_store_event e = false /\ is_inference_event e = false) evs.
Proof.
  apply (rejected_token_unauthorized (H := Demo.services) Chat
           {| authorization := Some "Basic good"; json := Demo.hello |} Demo.busy_world).
  apply (bearer_missing (H := Demo.services) _ "Basic good"); reflexivity.
Defined.

Lemma chat_conversation_witness :
  exists resp w',
    chat (H := Demo.services) (Demo.post Demo.hello) Demo.busy_world = (Ok resp, w')
    /\ sent_conversations (log w')
       = (sent_conversations (log Demo.busy_world)
          ++ [spec_conversation general_prompt
                (messages_of Demo.busy_store "alice" "s1"
                 ++ [added_message (H := Demo.services) Demo.busy_store "user" (PStr "hi")])])%list.
Proof.
  apply (proj2 (chat_conversation (H := Demo.services) (Demo.post Demo.hello)
                  Demo.busy_world)
           {| uid := "alice" |} [("message", PStr "hi"); ("session_id", PStr "s1")]
           "hi" "s1" general_prompt).
  - exists "Bearer good", "good". repeat split; reflexivity.
  - reflexivity.
  - reflexivity.
  - discriminate.
  - reflexivity.
  - discriminate.
  - reflexivity.
  - reflexivity.
Defined.

(** The conversation of that request, in full: the three stored messages
    in the order of their timestamps, then the new one. *)
Example chat_conversation_demo :
  spec_conversation "I"
    (messages_of Demo.busy_store "alice" "s1"
     ++ [added_message (H := Demo.services) Demo.busy_store "user" (PStr "hi")])
  = [ {| role := "user"; parts := [PStr "I"] |};
      {| role := "model"; parts := [PStr ACKNOWLEDGEMENT] |};
      {| role := "user"; parts := [PStr "one"] |};
      {| role := "model"; parts := [PStr "two"] |};
      {| role := "user"; parts := [PStr "three"] |};
      {| role := "user"; parts := [PStr "hi"] |} ].
Proof. vm_compute. reflexivity. Qed.


Lemma create_session_key_witness :
  let request := Demo.post (PDict [("session_name", PStr "proj")]) in
  let w := Demo.busy_world in
  (forall name, PStr "proj" = PStr name -> name <> "" -> occurs "/" name = false ->
     exists w',
       create_session (H := Demo.services) request w
       = (Ok {| body := PDict [("session_id", PStr name); ("name", PStr name)];
                status := 200 |}, w')
       /\ sessions (db w') !! ("alice", name)
          = Some {| s_name := Some (PStr name);
                    s_created_at := server_timestamp (Services := Demo.services) (db w) |})
  /\ (truthy (PStr "proj") = false ->
      let label := "Chat - " +:+ strftime_minute (utcnow (Services := Demo.services)) in
      exists w',
        create_session (H := Demo.services) request w
        = (Ok {| body := PDict [("session_id",
                                 PStr (auto_id (Services := Demo.services) (db w)));
                                ("name", PStr label)];
                 status := 200 |}, w')
        /\ sessions (db w') !! ("alice", auto_id (Services := Demo.services) (db w))
           = Some {| s_name := Some (PStr label);
                     s_created_at := server_timestamp (Services := Demo.services) (db w) |}).
Proof.
  apply (create_session_key (H := Demo.services)
           (Demo.post (PDict [("session_name", PStr "proj")])) {| uid := "alice" |}
           Demo.busy_world (PStr "proj")).
  - exists "Bearer good", "good". repeat split; reflexivity.
  - reflexivity.
Defined.

(** The two branches of [create_session], run. *)
Example create_session_named_demo :
  exists w',
    create_session (H := Demo.services)
      (Demo.post (PDict [("session_name", PStr "proj")])) Demo.empty_world
    = (Ok {| body := PDict [("session_id", PStr "proj"); ("name", PStr "proj")];
             status := 200 |}, w')
    /\ sessions (db w') !! ("alice", "proj")
       = Some {| s_name := Some (PStr "proj"); s_created_at := 0 |}.
Proof. eexists. split; vm_compute; reflexivity. Qed.

(** A name with one ["/"] is not the path of a document: the request is
    answered 500 and nothing is stored. *)
Example create_session_slash_demo :
  exists resp,
    create_session (H := Demo.services)
      (Demo.post (PDict [("session_name", PStr "a/b")])) Demo.empty_world
    = (Ok resp, {| db := db Demo.empty_world; log := [EvVerifyIdToken "good"] |})
    /\ status resp = 500%nat.
Proof. eexists. split; vm_compute; reflexivity. Qed.

(** A name with two is the path of a document two levels down: the answer
    carries the last element of the path for [session_id], and the
    sessions collection gets no document. *)
Example create_session_nested_demo :
  exists w',
    create_session (H := Demo.services)
      (Demo.post (PDict [("session_name", PStr "a/b/c")])) Demo.empty_world
    = (Ok {| body := PDict [("session_id", PStr "c"); ("name", PStr "a/b/c")];
             status := 200 |}, w')
    /\ sessions (db w') = ∅
    /\ others (db w') !! ("alice", "a/b/c")
       = Some {| s_name := Some (PStr "a/b/c"); s_created_at := 0 |}.
Proof. eexists. split; [| split]; vm_compute; reflexivity. Qed.

(** A session id with one ["/"], or a message that is an integer out of
    the range of the store, is refused before anything is written: the
    chat request is answered 500 and the model is not called. *)
Example chat_slash_demo :
  exists resp,
    chat (H := Demo.services)
      (Demo.post (PDict [("message", PStr "hi"); ("session_id", PStr "a/b")]))
      Demo.empty_world
    = (Ok resp, {| db := db Demo.empty_world; log := [EvVerifyIdToken "good"] |})
    /\ status resp = 500%nat.
Proof. eexists. split; vm_compute; reflexivity. Qed.

Example chat_out_of_range_demo :
  exists resp,
    chat (H := Demo.services)
      (Demo.post (PDict [("message", PInt (2 ^ 63)); ("session_id", PStr "s1")]))
      Demo.empty_world
    = (Ok resp, {| db := db Demo.empty_world; log := [EvVerifyIdToken "good"] |})
    /\ status resp = 500%nat.
Proof. eexists. split; vm_compute; reflexivity. Qed.

(** A name that is the path of a message replaces the message by a
    document that is not one: the collection of the session loses it. *)
Example create_session_over_message_demo :
  exists w',
    create_session (H := Demo.services)
      (Demo.post (PDict [("session_name", PStr "s1/messages/a")])) Demo.busy_world
    = (Ok {| body := PDict [("session_id", PStr "a"); ("name", PStr "s1/messages/a")];
             status := 200 |}, w')
    /\ sessions (db w') = sessions Demo.busy_store
    /\ messages_of (db w') "alice" "s1"
       = [Demo.msg "c" "assistant" "two" 3; Demo.msg "b" "user" "three" 5].
Proof. eexists. split; [| split]; vm_compute; reflexivity. Qed.

Example create_session_unnamed_demo :
  exists w',
    create_session (H := Demo.services) (Demo.post PNone) Demo.empty_world
    = (Ok {| body := PDict [("session_id", PStr "doc0");
                            ("name", PStr "Chat - 2024-03-07 09:05")];
             status := 200 |}, w')
    /\ sessions (db w') !! ("alice", "doc0")
       = Some {| s_name := Some (PStr "Chat - 2024-03-07 09:05"); s_created_at := 0 |}.
Proof. eexists. split; vm_compute; reflexivity. Qed.

Lemma delete_session_frame_witness :
  exists w',
    delete_session (H := Demo.services) "s1" (Demo.post PNone) Demo.busy_world
    = (Ok {| body := PDict [("success", PBool true)]; status := 200 |}, w')
    /\ sessions (db w') !! ("alice", "s1") = None
    /\ (forall k, k <> ("alice", "s1") ->
          sessions (db w') !! k = sessions (db Demo.busy_world) !! k)
    /\ messages (db w') = messages (db Demo.busy_world).
Proof.
  apply (delete_session_frame (H := Demo.services) "s1" (Demo.post PNone)
           {| uid := "alice" |} Demo.busy_world).
  exists "Bearer good", "good". repeat split; reflexivity.
Defined.

(** The messages of the deleted session are still there. *)
Example delete_session_orphans :
  exists resp w',
    delete_session (H := Demo.services) "s1" (Demo.post PNone) Demo.busy_world = (Ok resp, w')
    /\ sessions (db w') !! ("alice", "s1") = None
    /\ length (messages_of (db w') "alice" "s1") = 3%nat.
Proof. eexists _, _. split; [| split]; vm_compute; reflexivity. Qed.

Lemma get_session_messages_sorted_witness :
  exists docs w',
    get_session_messages (H := Demo.services) "s1" (Demo.post PNone) Demo.busy_world
    = (Ok {| body := PList (map (fun m => PDict (message_to_dict m)) docs);
             status := 200 |}, w')
    /\ docs ≡ₚ messages_of (db Demo.busy_world) "alice" "s1"
    /\ Sorted (fun a b => m_timestamp a <= m_timestamp b) docs
    /\ db w' = db Demo.busy_world.
Proof.
  apply (get_session_messages_sorted (H := Demo.services) "s1" (Demo.post PNone)
           {| uid := "alice" |} Demo.busy_world).
  exists "Bearer good", "good". repeat split; reflexivity.
Defined.

Example get_session_messages_demo :
  (get_session_messages (H := Demo.services) "s1" (Demo.post PNone) Demo.busy_world).1
  = Ok {| body := PList (map (fun m => PDict (message_to_dict m))
                           [Demo.msg "a" "user" "one" 2; Demo.msg "c" "assistant" "two" 3;
                            Demo.msg "b" "user" "three" 5]);
          status := 200 |}.
Proof. vm_compute. reflexivity. Qed.

Lemma get_chat_sessions_listing_witness :
  exists docs w',
    get_chat_sessions (H := Demo.services) (Demo.post PNone) Demo.busy_world
    = (Ok {| body := PList (map session_entry docs); status := 200 |}, w')
    /\ (forall session_id d,
          (session_id, d) ∈ docs
          <-> sessions (db Demo.busy_world) !! ("alice", session_id) = Some d)
    /\ NoDup docs.*1
    /\ Sorted (fun a b => s_created_at a.2 >= s_created_at b.2) docs
    /\ (forall session_id d n,
          (session_id, d) ∈ docs -> s_name d = Some n ->
          session_entry (session_id, d) = PDict [("id", PStr session_id); ("name", n)])
    /\ db w' = db Demo.busy_world.
Proof.
  apply (get_chat_sessions_listing (H := Demo.services) (Demo.post PNone)
           {| uid := "alice" |} Demo.busy_world).
  exists "Bearer good", "good". repeat split; reflexivity.
Defined.

Example get_chat_sessions_demo :
  (get_chat_sessions (H := Demo.services) (Demo.post PNone) Demo.busy_world).1
  = Ok {| body := PList [PDict [("id", PStr "s2"); ("name", PStr "Session s2")];
                         PDict [("id", PStr "s1"); ("name", PStr "first")]];
          status := 200 |}.
Proof. vm_compute. reflexivity. Qed.

(** * Further properties of the handlers *)

(** ** Reasoning on effects *)

#[global] Instance changes_reflexive P Q `{!Reflexive P} : Reflexive (changes P Q).
Proof. intros w. split; [done |]. exists []. by rewrite app_nil_r. Qed.

#[global] Instance changes_transitive P Q `{!Transitive P} : Transitive (changes P Q).
Proof.
  intros w1 w2 w3 [HP12 (evs1 & Hlog1 & HQ1)] [HP23 (evs2 & Hlog2 & HQ2)].
  split; [by etrans |]. exists (evs1 ++ evs2)%list.
  rewrite Hlog2, Hlog1, <- app_assoc. split; [done |]. by apply Forall_app.
Qed.

#[global] Instance same_sessions_preorder : PreOrder same_sessions.
Proof. split; [done |]. unfold same_sessions. intros s1 s2 s3 H12 H23. congruence. Qed.

#[global] Instance same_messages_preorder : PreOrder same_messages.
Proof. split; [done |]. unfold same_messages. intros s1 s2 s3 H12 H23. congruence. Qed.

#[global] Instance only_under_preorder user_id : PreOrder (only_under user_id).
Proof.
  split; [done |]. intros s1 s2 s3 H12 H23 k Hk.
  destruct (H12 k Hk) as (Hs12 & Hm12 & Ho12). destruct (H23 k Hk) as (Hs23 & Hm23 & Ho23).
  repeat split; congruence.
Qed.

#[global] Instance no_new_message_preorder : PreOrder no_new_message.
Proof.
  split.
  - by intros s u sid m.
  - intros s1 s2 s3 H12 H23 u sid m Hin. by apply H12, H23.
Qed.

(** What the three writes do to the documents of the other users, and to
    the collections of messages. *)
Lemma only_under_with_session user_id ref s d :
  only_under user_id s (with_session s user_id ref d).
Proof.
  intros [u sid] Hk. simpl in Hk.
  destruct ref as [id | path]; simpl.
  - split; [| done]. apply lookup_insert_ne. congruence.
  - split; [done |]. split.
    + destruct (addressed_message path) as [[q id] |]; [| done].
      apply lookup_alter_ne. congruence.
    + apply lookup_insert_ne. congruence.
Qed.

Lemma only_under_delete user_id session_id s :
  only_under user_id s
    {| sessions := delete (user_id, session_id) (sessions s);
       messages := messages s;
       others := others s |}.
Proof.
  intros [u sid] Hk. simpl in *. split; [| done].
  apply lookup_delete_ne. congruence.
Qed.

Lemma only_under_with_message user_id session_id s d :
  only_under user_id s (with_message s user_id session_id d).
Proof.
  intros [u sid] Hk. simpl in *. split; [done |]. split; [| done].
  apply lookup_insert_ne. congruence.
Qed.

Lemma no_new_message_with_session user_id ref s d :
  no_new_message s (with_session s user_id ref d).
Proof.
  intros u sid m. destruct ref as [id | path]; simpl; [done |].
  unfold messages_of. simpl.
  destruct (addressed_message path) as [[q id] |]; [| done].
  destruct (decide ((user_id, q) = (u, sid))) as [<- | Hne].
  - rewrite lookup_alter_eq. destruct (messages s !! (user_id, q)) as [l |]; simpl; [| done].
    intros Hin. by apply list_elem_of_filter in Hin as [_ Hin].
  - by rewrite lookup_alter_ne.
Qed.

Lemma effect_ret {A} (R : relation world) `{!Reflexive R} (a : A) : effect R (mret a).
Proof. intros w. done. Qed.

Lemma effect_lift {A} (R : relation world) `{!Reflexive R} (o : outcome A) :
  effect R (lift o).
Proof. intros w. done. Qed.

Lemma effect_get_db (R : relation world) `{!Reflexive R} : effect R get_db.
Proof. intros w. done. Qed.

Lemma effect_bind_post {A B} (R : relation world) `{!Transitive R} (post : A -> Prop)
    (m : M A) (f : A -> M B) :
  effect R m -> returns post m -> (forall a, post a -> effect R (f a)) ->
  effect R (m ≫= f).
Proof.
  intros Hm Hpost Hf w. unfold mbind, M_bind.
  specialize (Hm w). specialize (Hpost w).
  destruct (m w) as [[a | e] w1]; simpl in *; [| done].
  etrans; [exact Hm |]. by apply Hf, Hpost.
Qed.

Lemma effect_bind {A B} (R : relation world) `{!Transitive R} (m : M A) (f : A -> M B) :
  effect R m -> (forall a, effect R (f a)) -> effect R (m ≫= f).
Proof.
  intros Hm Hf. apply (effect_bind_post R (fun _ => True)); [done | done |].
  intros a _. apply Hf.
Qed.

Lemma effect_try {A} (R : relation world) `{!Transitive R} (body : M A)
    (handler : exn -> M A) :
  effect R body -> (forall e, effect R (handler e)) -> effect R (try_except body handler).
Proof.
  intros Hbody Hhandler w. unfold try_except. specialize (Hbody w).
  destruct (body w) as [[a | e] w1]; simpl in *; [done |].
  etrans; [exact Hbody |]. apply Hhandler.
Qed.

Lemma effect_emit P Q `{!Reflexive P} (e : event) : Q e -> effect (changes P Q) (emit e).
Proof. intros HQ w. split; [done |]. exists [e]. split; [done |]. by constructor. Qed.

Lemma effect_put_db P Q (s' : store) :
  (forall s, P s s') -> effect (changes P Q) (put_db s').
Proof. intros HP w. split; [apply HP |]. exists []. by rewrite app_nil_r. Qed.

Ltac effect_step :=
  lazymatch goal with
  | |- effect _ (mbind _ _) => apply effect_bind; [apply _ | | intros ?]
  | |- effect _ (mret _) => apply effect_ret; apply _
  | |- effect _ (lift _) => apply effect_lift; apply _
  | |- effect _ (raise _) => apply effect_lift; apply _
  | |- effect _ get_db => apply effect_get_db; apply _
  | |- effect _ (emit _) => apply effect_emit; [apply _ |]
  | |- effect _ (try_except _ _) => apply effect_try; [apply _ | | intros ?]
  | |- effect _ (if ?c then _ else _) => destruct c
  end.

Section Effects.
Context `{Services}.
Context (P : relation store) (Q : event -> Prop) `{!PreOrder P}.

Lemma sessions_stream_effect user_id :
  Q (EvSessionsStream user_id) -> effect (changes P Q) (sessions_stream user_id).
Proof.
  intros HQ. unfold sessions_stream. repeat effect_step. done.
Qed.

Lemma messages_stream_effect user_id session_id descending limit :
  Q (EvMessagesStream user_id session_id descending limit) ->
  effect (changes P Q) (messages_stream user_id session_id descending limit).
Proof.
  intros HQ. unfold messages_stream. repeat effect_step. done.
Qed.

Lemma session_set_effect user_id ref name :
  (forall d, Q (EvSessionSet user_id (ref_path ref) d)) ->
  (forall s d, P s (with_session s user_id ref d)) ->
  effect (changes P Q) (session_set user_id ref name).
Proof.
  intros HQ HP w. unfold session_set. mrun. split; [apply HP |].
  eexists [_]. split; [done |]. constructor; [apply HQ | done].
Qed.

Lemma session_delete_effect user_id session_id :
  Q (EvSessionDelete user_id session_id) ->
  (forall s, P s {| sessions := delete (user_id, session_id) (sessions s);
                    messages := messages s;
                    others := others s |}) ->
  effect (changes P Q) (session_delete user_id session_id).
Proof.
  intros HQ HP w. unfold session_delete. mrun. split; [apply HP |].
  eexists [_]. split; [done |]. by constructor.
Qed.

Lemma message_add_effect user_id session_id role content :
  (forall d, Q (EvMessageAdd user_id session_id d)) ->
  (forall s d, P s (with_message s user_id session_id d)) ->
  effect (changes P Q) (message_add user_id session_id role content).
Proof.
  intros HQ HP w. unfold message_add. mrun.
  destruct (field_value content) as [v | e]; simpl.
  - split; [apply HP |]. eexists [_]. split; [done |]. constructor; [apply HQ | done].
  - reflexivity.
Qed.

Lemma call_generate_content_effect conversation :
  Q (EvGenerateContent conversation) ->
  effect (changes P Q) (call_generate_content conversation).
Proof.
  intros HQ. unfold call_generate_content. repeat effect_step. done.
Qed.

(** The gate: it only consults the identity provider, at most once, and
    what it lets through is authenticated. *)
Lemma verify_token_log request w :
  exists u evs,
    verify_token request w = (Ok u, {| db := db w; log := log w ++ evs |})
    /\ (evs = [] \/ exists id_token, evs = [EvVerifyIdToken id_token])
    /\ (forall user, u = Some user -> authenticated request user).
Proof.
  destruct (verify_token_cases request w)
    as [(user & id_token & Hauth & Hrun) | (Hrej & evs & Hrun)].
  - exists (Some user), [EvVerifyIdToken id_token]. split; [done |].
    split; [right; by exists id_token |]. by intros ? [= <-].
  - destruct (verify_token_rejected request w Hrej) as (evs' & Hrun' & _).
    destruct Hrej as [Hheader | header Hheader Hocc | header id_token e Hheader Hsplit Hverify];
      exists None; unfold verify_token, call_verify_id_token, index;
      rewrite Hheader; mrun.
    + exists []. rewrite app_nil_r. split; [by destruct w |]. split; [by left | done].
    + apply split_second_none in Hocc. rewrite Hocc. simpl.
      exists []. rewrite app_nil_r. split; [by destruct w |]. split; [by left | done].
    + rewrite Hsplit. simpl. rewrite Hverify.
      exists [EvVerifyIdToken id_token]. split; [done |].
      split; [right; by exists id_token | done].
Qed.

Lemma verify_token_effect request :
  (forall id_token, Q (EvVerifyIdToken id_token)) ->
  effect (changes P Q) (verify_token request).
Proof.
  intros HQ w. destruct (verify_token_log request w) as (u & evs & -> & Hevs & _).
  split; [done |]. exists evs. split; [done |].
  destruct Hevs as [-> | [id_token ->]]; [constructor |]. constructor; [apply HQ | done].
Qed.

Lemma verify_token_returns request :
  returns (fun u => forall user, u = Some user -> authenticated request user)
          (verify_token request).
Proof.
  intros w u Hu. destruct (verify_token_log request w) as (u' & evs & Hrun & _ & Hauth).
  rewrite Hrun in Hu. simpl in Hu. by injection Hu as <-.
Qed.

End Effects.

(** The effect of each handler, for any way [P] the store may move and any
    kind [Q] of call, follows from what its store operations do under the
    authenticated user. *)
Section HandlerEffects.
Context `{Services}.
Context (P : relation store) (Q : event -> Prop) `{!PreOrder P}.
Hypothesis Q_verify : forall id_token, Q (EvVerifyIdToken id_token).

Ltac through_gate request :=
  apply effect_bind_post
    with (post := fun u => forall user, u = Some user -> authenticated request user);
  [ apply _
  | by apply verify_token_effect
  | apply verify_token_returns
  | intros [user |] Hauth; [specialize (Hauth user eq_refl); cbv zeta | effect_step] ].

Lemma get_chat_sessions_effect request :
  (forall user, authenticated request user -> Q (EvSessionsStream (uid user))) ->
  effect (changes P Q) (get_chat_sessions request).
Proof.
  intros HQ. unfold get_chat_sessions, get_chat_sessions_try. through_gate request.
  repeat effect_step. apply sessions_stream_effect; [done | by apply HQ].
Qed.

Lemma get_session_messages_effect session_id request :
  (forall user, authenticated request user ->
     Q (EvMessagesStream (uid user) session_id false None)) ->
  effect (changes P Q) (get_session_messages session_id request).
Proof.
  intros HQ. unfold get_session_messages, get_session_messages_try. through_gate request.
  repeat effect_step. apply messages_stream_effect; [done | by apply HQ].
Qed.

Lemma delete_session_effect session_id request :
  (forall user, authenticated request user ->
     Q (EvSessionDelete (uid user) session_id)
     /\ forall s, P s {| sessions := delete (uid user, session_id) (sessions s);
                         messages := messages s;
                         others := others s |}) ->
  effect (changes P Q) (delete_session session_id request).
Proof.
  intros HPQ. unfold delete_session, delete_session_try. through_gate request.
  destruct (HPQ user Hauth) as [HQ HP].
  repeat effect_step. by apply session_delete_effect.
Qed.

Lemma create_session_effect request :
  (forall user ref, authenticated request user ->
     (forall d, Q (EvSessionSet (uid user) (ref_path ref) d))
     /\ forall s d, P s (with_session s (uid user) ref d)) ->
  effect (changes P Q) (create_session request).
Proof.
  intros HPQ. unfold create_session, create_session_try. through_gate request.
  repeat effect_step.
  all: match goal with
       | |- effect _ (session_set _ ?ref _) =>
           destruct (HPQ user ref Hauth) as [HQ HP]; by apply session_set_effect
       end.
Qed.

Lemma chat_effect request :
  (forall user session_id, authenticated request user ->
     (forall d, Q (EvMessageAdd (uid user) session_id d))
     /\ Q (EvMessagesStream (uid user) session_id true (Some 20%nat))
     /\ forall s d, P s (with_message s (uid user) session_id d)) ->
  (forall conversation, Q (EvGenerateContent conversation)) ->
  effect (changes P Q) (chat request).
Proof.
  intros HPQ Hgen. unfold chat, chat_try. through_gate request.
  repeat effect_step.
  all: try match goal with
           | |- effect _ (message_add _ ?sid _ _) =>
               destruct (HPQ user sid Hauth) as (HQ & _ & HP); by apply message_add_effect
           | |- effect _ (messages_stream _ ?sid _ _) =>
               destruct (HPQ user sid Hauth) as (_ & HQ & _); by apply messages_stream_effect
           | |- effect _ (call_generate_content _) =>
               by apply call_generate_content_effect
           end.
Qed.

End HandlerEffects.

(** ** What the routes never do *)

Section Never.
Context `{Services}.

Lemma authenticated_functional request user user' :
  authenticated request user -> authenticated request user' -> user = user'.
Proof.
  intros (header & id_token & Hheader & Hsplit & Hverify)
         (header' & id_token' & Hheader' & Hsplit' & Hverify').
  congruence.
Qed.

(** X1. The two reading routes, list sessions and fetch messages, are
    read-only for every request, authenticated or not: the store is left
    exactly as it was, and no write to the store and no call to the model
    is made. *)
Theorem read_routes_read_only session_id (request : request) (w : world) :
  let Q e := is_store_write e = false /\ is_inference_event e = false in
  changes eq Q w (get_chat_sessions request w).2
  /\ changes eq Q w (get_session_messages session_id request w).2.
Proof.
  intros Q. split.
  - apply (get_chat_sessions_effect eq Q); by intros.
  - apply (get_session_messages_effect eq Q); by intros.
Qed.

(** X2. No route other than chat ever calls the model, whatever the
    request. *)
Theorem only_chat_calls_model (r : route) (request : request) (w : world) :
  r <> Chat ->
  exists evs,
    log (handle r request w).2 = (log w ++ evs)%list
    /\ sent_conversations evs = [].
Proof.
  intros Hr.
  assert (changes (fun _ _ => True) (fun e => is_inference_event e = false)
            w (handle r request w).2) as [_ (evs & Hlog & Hevs)].
  { assert (PreOrder (fun _ _ : store => True)) as Hpre by (split; by intros ?).
    destruct r; simpl; [| | | | done].
    - apply get_chat_sessions_effect; by intros.
    - apply create_session_effect; by intros.
    - apply get_session_messages_effect; by intros.
    - apply delete_session_effect; by intros. }
  exists evs. split; [done |].
  clear Hlog. induction Hevs as [| e evs He _ IH]; [done |].
  destruct e; try done.
Qed.

(** X3. Sessions and messages are written by different routes.  The chat
    route never creates, replaces or deletes a session document.  The two
    reading routes and the delete route leave every collection of messages
    as it was.  The create-session route never adds a message: no
    collection of messages gains one, and all are left as they were unless
    the requested name is a string with a ["/"], which the store reads as
    a path. *)
Theorem store_discipline (r : route) (request : request) (w : world) :
  match r with
  | Chat =>
      changes same_sessions (fun e => is_session_write e = false) w (handle r request w).2
  | CreateSession =>
      changes no_new_message (fun e => is_message_write e = false) w (handle r request w).2
      /\ ((forall name, requested_name request = Ok (PStr name) -> occurs "/" name = false) ->
          same_messages (db w) (db (handle r request w).2))
  | _ =>
      changes same_messages (fun e => is_message_write e = false) w (handle r request w).2
  end.
Proof.
  destruct r; simpl.
  - apply get_chat_sessions_effect; [apply _ | done | by intros].
  - split.
    + apply create_session_effect; [apply _ | done |].
      intros user ref _. split; [done |]. intros s d. apply no_new_message_with_session.
    + intros Hplain.
      destruct (verify_token_cases request w)
        as [(user & id_token & Hauth & _) | (Hrej & _)].
      * destruct (create_session_run request user w Hauth) as [tok Hrun].
        cbv zeta in Hrun. rewrite Hrun. clear Hrun.
        destruct (requested_name request) as [v | e] eqn:Hname; [| done].
        destruct (truthy v) eqn:Htruthy.
        -- destruct (document (db w) v) as [ref | e] eqn:Hdoc; [| done].
           destruct v as [| | | name | | |]; try done.
           rewrite (document_plain (db w) name (Hplain name eq_refl)) in Hdoc.
           by injection Hdoc as <-.
        -- done.
      * destruct (verify_token_rejected request w Hrej) as (evs & Hgate & _).
        unfold create_session. unfold mbind at 1, M_bind at 1. by rewrite Hgate.
  - apply get_session_messages_effect; [apply _ | done | by intros].
  - apply delete_session_effect; [apply _ | done | by intros].
  - apply chat_effect; [apply _ | done | by intros | done].
Qed.

(** X4. Whatever an authenticated user asks of whatever route, nothing
    stored under another user moves, neither session documents nor
    messages, and every call made to the store is on the collections of
    the user of the token. *)
Theorem other_users_untouched (r : route) (request : request) user (w : world) :
  authenticated request user ->
  changes (only_under (uid user))
          (fun e => forall u, event_user e = Some u -> u = uid user)
          w (handle r request w).2.
Proof.
  intros Hauth.
  assert (forall user', authenticated request user' -> user' = user) as Hsame
    by (intros user' Hauth'; by apply (authenticated_functional request)).
  destruct r; simpl.
  - apply get_chat_sessions_effect; [apply _ | done |].
    intros user' ->%Hsame. by intros ? [= <-].
  - apply create_session_effect; [apply _ | done |].
    intros user' ref ->%Hsame.
    split; [by intros ? ? [= <-] | intros s d; apply only_under_with_session].
  - apply get_session_messages_effect; [apply _ | done |].
    intros user' ->%Hsame. by intros ? [= <-].
  - apply delete_session_effect; [apply _ | done |].
    intros user' ->%Hsame. split; [by intros ? [= <-] | apply only_under_delete].
  - apply chat_effect; [apply _ | done | | done].
    intros user' sid ->%Hsame.
    split; [by intros ? ? [= <-] |].
    split; [by intros ? [= <-] | intros s d; apply only_under_with_message].
Qed.

End Never.

(** ** Reads of one user and requests of another *)

Lemma string_leb_trans (a b c : string) :
  String.leb a b = true -> String.leb b c = true -> String.leb a c = true.
Proof.
  intros Hab Hbc. apply Is_true_true.
  apply (transitivity (R := String.le) (y := b)); by apply Is_true_true.
Qed.

#[global] Instance session_le_transitive : Transitive session_le.
Proof.
  intros a b c. unfold session_le, session_leb. intros Hab Hbc.
  apply orb_true_iff in Hab as [Hab | Hab]; apply orb_true_iff in Hbc as [Hbc | Hbc];
    apply orb_true_iff.
  - left. apply Z.ltb_lt in Hab, Hbc. apply Z.ltb_lt. lia.
  - left. apply andb_true_iff in Hbc as [Hbc _].
    apply Z.ltb_lt in Hab. apply Z.eqb_eq in Hbc. apply Z.ltb_lt. lia.
  - left. apply andb_true_iff in Hab as [Hab _].
    apply Z.eqb_eq in Hab. apply Z.ltb_lt in Hbc. apply Z.ltb_lt. lia.
  - right. apply andb_true_iff in Hab as [Hab Hab'].
    apply andb_true_iff in Hbc as [Hbc Hbc'].
    apply Z.eqb_eq in Hab, Hbc. apply andb_true_iff. split.
    + apply Z.eqb_eq. lia.
    + by apply (string_leb_trans _ b.1).
Qed.

#[global] Instance session_ge_transitive : Transitive (flip session_le).
Proof. intros a b c Hab Hbc. unfold flip in *. by etrans. Qed.

Lemma session_le_antisym_id a b : session_le a b -> session_le b a -> a.1 = b.1.
Proof.
  unfold session_le, session_leb. intros Hab Hba.
  apply orb_true_iff in Hab as [Hab | Hab]; apply orb_true_iff in Hba as [Hba | Hba];
    try apply Z.ltb_lt in Hab; try apply Z.ltb_lt in Hba;
    try (apply andb_true_iff in Hab as [Hab Hab']; apply Z.eqb_eq in Hab);
    try (apply andb_true_iff in Hba as [Hba Hba']; apply Z.eqb_eq in Hba);
    try lia.
  by apply String.leb_antisym.
Qed.

Lemma NoDup_fst_functional {A B} (l : list (A * B)) x y1 y2 :
  NoDup l.*1 -> (x, y1) ∈ l -> (x, y2) ∈ l -> y1 = y2.
Proof.
  induction l as [| [x' y'] l IH]; intros Hnodup Hin1 Hin2; [by apply elem_of_nil in Hin1 |].
  simpl in Hnodup. apply NoDup_cons in Hnodup as [Hnotin Hnodup].
  apply elem_of_cons in Hin1 as [Heq1 | Hin1];
    apply elem_of_cons in Hin2 as [Heq2 | Hin2]; simplify_eq.
  - done.
  - destruct Hnotin. apply list_elem_of_fmap. by exists (x', y2).
  - destruct Hnotin. apply list_elem_of_fmap. by exists (x', y1).
  - by apply IH.
Qed.

(** The order of a listing is settled by the documents listed: two
    collections with the same documents are listed alike. *)
Lemma listing_canonical (l1 l2 : list (string * session_doc)) :
  l1 ≡ₚ l2 -> NoDup l1.*1 ->
  merge_sort (flip session_le) l1 = merge_sort (flip session_le) l2.
Proof.
  intros Hperm Hnodup.
  apply (StronglySorted_unique_strong (flip session_le)).
  - intros [sid1 d1] [sid2 d2] Hin1 Hin2 H12 H21.
    pose proof (session_le_antisym_id _ _ H21 H12) as Hid. simpl in Hid. subst sid2.
    f_equal. apply (NoDup_fst_functional l1 sid1); [done | |].
    + by rewrite merge_sort_Permutation in Hin1.
    + by rewrite merge_sort_Permutation, <- Hperm in Hin2.
  - apply (StronglySorted_merge_sort (flip session_le)).
  - apply (StronglySorted_merge_sort (flip session_le)).
  - by rewrite !merge_sort_Permutation.
Qed.

Lemma sessions_of_agree (s s' : store) user_id :
  (forall session_id,
      sessions s' !! (user_id, session_id) = sessions s !! (user_id, session_id)) ->
  sessions_of s' user_id ≡ₚ sessions_of s user_id.
Proof.
  intros Hagree. apply NoDup_Permutation.
  - eapply NoDup_fmap_1, NoDup_sessions_of.
  - eapply NoDup_fmap_1, NoDup_sessions_of.
  - intros [sid d]. rewrite !elem_of_sessions_of. by rewrite Hagree.
Qed.

Section Isolation.
Context `{Services}.

(** X5. What a user reads is not affected by the requests of another
    user: after any request of any route made with the token of a
    different user, the listing of sessions and the fetch of the messages
    of a session answer exactly as before. *)
Theorem reads_unaffected_by_other_users (r : route) (other reader : request)
    user_other user_reader session_id (w : world) :
  authenticated other user_other ->
  authenticated reader user_reader ->
  uid user_reader <> uid user_other ->
  let w' := (handle r other w).2 in
  (get_chat_sessions reader w').1 = (get_chat_sessions reader w).1
  /\ (get_session_messages session_id reader w').1
     = (get_session_messages session_id reader w).1.
Proof.
  intros Hother Hreader Hne w'.
  assert (only_under (uid user_other) (db w) (db w')) as Hframe.
  { assert (changes (only_under (uid user_other)) (fun _ => True) w w') as [Hframe _];
      [| done].
    assert (forall user', authenticated other user' -> user' = user_other) as Hsame
      by (intros user' Hauth'; by apply (authenticated_functional other)).
    unfold w'. destruct r; simpl.
    - apply get_chat_sessions_effect; [apply _ | done | done].
    - apply create_session_effect; [apply _ | done |].
      intros user' ref ->%Hsame. split; [done | intros s d; apply only_under_with_session].
    - apply get_session_messages_effect; [apply _ | done | done].
    - apply delete_session_effect; [apply _ | done |].
      intros user' ->%Hsame. split; [done | apply only_under_delete].
    - apply chat_effect; [apply _ | done | | done].
      intros user' sid ->%Hsame. split; [done |].
      split; [done | intros s d; apply only_under_with_message]. }
  split.
  - destruct (get_chat_sessions_authenticated reader user_reader w' Hreader) as [? ->].
    destruct (get_chat_sessions_authenticated reader user_reader w Hreader) as [? ->].
    simpl. rewrite (listing_canonical (sessions_of (db w') (uid user_reader))
                      (sessions_of (db w) (uid user_reader)));
      [done | | apply NoDup_sessions_of].
    apply sessions_of_agree. intros sid. by apply (Hframe (uid user_reader, sid)).
  - destruct (get_session_messages_authenticated session_id reader user_reader w' Hreader)
      as [? ->].
    destruct (get_session_messages_authenticated session_id reader user_reader w Hreader)
      as [? ->].
    simpl. unfold messages_of.
    by destruct (Hframe (uid user_reader, session_id) Hne) as (_ & -> & _).
Qed.

End Isolation.

(** ** The token of a request *)

Lemma prefix_app (sep t : string) : String.prefix sep (sep +:+ t) = true.
Proof.
  induction sep as [| c sep IH]; [by destruct t |].
  change (String c sep +:+ t) with (String c (sep +:+ t)). simpl.
  destruct (ascii_dec c c); [exact IH | done].
Qed.

Lemma split_from_skip sep (u : string) cur t :
  split_from sep (String.length u) cur (u +:+ t) = split_from sep 0 cur t.
Proof.
  induction u as [| c u IH]; [done |].
  change (String c u +:+ t) with (String c (u +:+ t)). exact IH.
Qed.

(** Text without the first character of the separator is read through. *)
Lemma split_from_without_first c sep (p : string) cur s :
  occurs (String c "") p = false ->
  split_from (String c sep) 0 cur (p +:+ s) = split_from (String c sep) 0 (cur +:+ p) s.
Proof.
  revert cur. induction p as [| x p IH]; intros cur Hocc.
  - by rewrite string_app_nil_r.
  - cbn [occurs] in Hocc. apply orb_false_iff in Hocc as [Hx Hocc].
    change (String x p +:+ s) with (String x (p +:+ s)). cbn [split_from].
    assert (String.prefix (String c sep) (String x (p +:+ s)) = false) as ->.
    { simpl in *. destruct (ascii_dec c x); [| done]. by destruct p. }
    rewrite (IH _ Hocc). by rewrite string_app_assoc.
Qed.

(** [split] around one occurrence of the separator. *)
Lemma split_around c sep (p t : string) :
  occurs (String c "") p = false ->
  occurs (String c sep) t = false ->
  split (p +:+ String c sep +:+ t) (String c sep) = [p; t].
Proof.
  intros Hp Ht. unfold split. rewrite split_from_without_first by done.
  pose proof (prefix_app (String c sep) t) as Hprefix.
  change (String c sep +:+ t) with (String c (sep +:+ t)) in *. cbn [split_from].
  rewrite Hprefix. cbn [String.length Nat.pred].
  rewrite split_from_skip, split_from_no_occurrence by done.
  reflexivity.
Qed.

Section Token.
Context `{Services}.

(** X6. From a header made of the scheme ["Bearer "] followed by a token
    (the token itself free of the scheme; the scheme possibly preceded by
    text without a capital B), the gate hands exactly that token to the
    identity provider, once, and lets the request through exactly when the
    provider accepts it. *)
Theorem bearer_token_extracted (request : request) (w : world) (p id_token : string) :
  authorization request = Some (p +:+ "Bearer " +:+ id_token) ->
  occurs "B" p = false ->
  occurs "Bearer " id_token = false ->
  verify_token request w
  = (match verify_id_token id_token with
     | Ok user => Ok (Some user)
     | Raise _ => Ok None
     end,
     {| db := db w; log := log w ++ [EvVerifyIdToken id_token] |}).
Proof.
  intros Hheader Hp Htoken.
  unfold verify_token, call_verify_id_token, index. rewrite Hheader. mrun.
  rewrite (split_around "B" "earer " p id_token Hp Htoken). simpl.
  by destruct (verify_id_token id_token).
Qed.

(** X7. The gate never raises and never touches the store.  It consults
    the identity provider exactly when the Authorization header is present
    and contains ["Bearer "], and then once, with the text between the
    first and the second occurrence; otherwise it refuses the request
    without any call. *)
Theorem identity_provider_consulted (request : request) (w : world) :
  exists u evs,
    verify_token request w = (Ok u, {| db := db w; log := log w ++ evs |})
    /\ match authorization request with
       | Some header =>
           if occurs "Bearer " header
           then exists id_token,
                  split header "Bearer " !! 1%nat = Some id_token
                  /\ evs = [EvVerifyIdToken id_token]
                  /\ (forall user, u = Some user <-> verify_id_token id_token = Ok user)
           else evs = [] /\ u = None
       | None => evs = [] /\ u = None
       end.
Proof.
  unfold verify_token, call_verify_id_token, index.
  destruct (authorization request) as [header |]; mrun.
  - destruct (occurs "Bearer " header) eqn:Hocc.
    + destruct (split_from_occurrence "Bearer " header "" Hocc) as [id_token Hsplit].
      unfold split. rewrite Hsplit. simpl.
      destruct (verify_id_token id_token) as [user | e] eqn:Hverify;
        eexists _, [_]; (split; [reflexivity |]); exists id_token;
        (split; [done |]); (split; [done |]); intros user'; split; congruence.
    + apply split_second_none in Hocc. rewrite Hocc. simpl.
      exists None, []. rewrite app_nil_r. by destruct w.
  - exists None, []. rewrite app_nil_r. by destruct w.
Qed.

End Token.

Example unanchored_scheme :
  split "Basic x, Bearer good" "Bearer " !! 1%nat = Some "good".
Proof. reflexivity. Qed.

(** ** More on the chat handler *)

Section ChatRuns.
Context `{Services}.

(** X8. The calls of a chat request follow one fixed sequence, of which
    every request performs an initial part: verify the token, store the
    user's message, fetch the history, call the model, store the
    assistant's message.  So the model is called at most once and only
    after the user's message is stored, and an assistant message is stored
    only after the model was called. *)
Theorem chat_protocol (request : request) (w : world) :
  exists id_token user_id session_id d_user conversation d_assistant evs,
    log (chat request w).2 = (log w ++ evs)%list
    /\ evs `prefix_of` chat_calls id_token user_id session_id d_user conversation d_assistant
    /\ m_role d_user = "user"
    /\ m_role d_assistant = "assistant".
Proof.
  pose (d0 := added_message (db w) "user" PNone).
  pose (d1 := added_message (db w) "assistant" PNone).
  destruct (verify_token_cases request w)
    as [(user & id_token & Hauth & _) | (Hrej & _)].
  - destruct (json request) as [| | | | | | d] eqn:Hjson.
    1-6: destruct (chat_body_not_dict request user w Hauth) as [tok Hrun];
      [intros d; congruence |];
      exists tok, "", "", d0, [], d1, [EvVerifyIdToken tok]; rewrite Hrun;
      (split; [done |]); (split; [by eexists | done]).
    destruct (truthy (dict_get d "message" PNone)) eqn:Hmessage.
    2: { destruct (chat_missing_fields request user w d Hauth Hjson (or_introl Hmessage))
           as [tok Hrun].
         exists tok, "", "", d0, [], d1, [EvVerifyIdToken tok]. rewrite Hrun.
         split; [done |]. split; [by eexists | done]. }
    destruct (truthy (dict_get d "session_id" PNone)) eqn:Hsession.
    2: { destruct (chat_missing_fields request user w d Hauth Hjson (or_intror Hsession))
           as [tok Hrun].
         exists tok, "", "", d0, [], d1, [EvVerifyIdToken tok]. rewrite Hrun.
         split; [done |]. split; [by eexists | done]. }
    destruct (chat_run request user w d Hauth Hjson Hmessage Hsession) as [tok Hrun].
    cbv zeta in Hrun. rewrite Hrun. clear Hrun.
    destruct (document (db w) (dict_get d "session_id" PNone)) as [ref | e].
    2: { exists tok, "", "", d0, [], d1, [EvVerifyIdToken tok].
         split; [done |]. split; [by eexists | done]. }
    destruct (field_value (Plain (dict_get d "message" PNone))) as [v | e].
    2: { exists tok, "", "", d0, [], d1, [EvVerifyIdToken tok].
         split; [done |]. split; [by eexists | done]. }
    set (sid := ref_path ref).
    set (d_user := added_message (db w) "user" (dict_get d "message" PNone)).
    set (s1 := with_message (db w) (uid user) sid d_user).
    destruct (system_prompts_get _ general_prompt) as [instruction | e].
    + set (conversation := spec_conversation instruction _).
      destruct (generate_content conversation ≫= reply_text) as [[a | t] | e];
        [destruct (encodable a) | |].
      * exists tok, (uid user), sid, d_user, conversation,
          (added_message s1 "assistant" a). eexists. cbn [snd log].
        rewrite <- !app_assoc. split; [reflexivity |]. by split.
      * exists tok, (uid user), sid, d_user, conversation, d1. eexists. cbn [snd log].
        rewrite <- !app_assoc. split; [reflexivity |]. split; [by eexists | done].
      * exists tok, (uid user), sid, d_user, conversation, d1. eexists. cbn [snd log].
        rewrite <- !app_assoc. split; [reflexivity |]. split; [by eexists | done].
      * exists tok, (uid user), sid, d_user, conversation, d1. eexists. cbn [snd log].
        rewrite <- !app_assoc. split; [reflexivity |]. split; [by eexists | done].
    + exists tok, (uid user), sid, d_user, [], d1. eexists. cbn [snd log].
      split; [reflexivity |]. split; [by eexists | done].
  - destruct (verify_token_log request w) as (u & evs & Hgate & Hevs & Hu).
    assert (u = None) as ->.
    { destruct u as [user |]; [| done].
      destruct (authenticated_not_rejected request user (Hu user eq_refl) Hrej). }
    assert (chat request w = (Ok unauthorized, {| db := db w; log := log w ++ evs |}))
      as Hrun.
    { unfold chat. unfold mbind at 1, M_bind at 1. by rewrite Hgate. }
    rewrite Hrun.
    destruct Hevs as [-> | [tok ->]].
    + exists "", "", "", d0, [], d1, []. split; [done |]. split; [by eexists | done].
    + exists tok, "", "", d0, [], d1, [EvVerifyIdToken tok].
      split; [done |]. split; [by eexists | done].
Qed.

Lemma chat_fields_present request user w d :
  authenticated request user ->
  json request = PDict d ->
  truthy (dict_get d "message" PNone) = true ->
  truthy (dict_get d "session_id" PNone) = true ->
  exists resp w',
    chat request w = (Ok resp, w') /\ (status resp = 200%nat \/ status resp = 500%nat).
Proof.
  intros Hauth Hjson Hmessage Hsession.
  destruct (verify_token_authenticated request user w Hauth) as [id_token Hgate].
  rewrite (chat_checked request user w d _ Hgate Hjson), Hmessage, Hsession.
  cbn [negb orb]. unfold try_except.
  match goal with
  | |- context [match ?body ?w1 with _ => _ end] => destruct (body w1) as [[r | e] w2] eqn:Hbody
  end.
  - exists r, w2. split; [done |]. left. unfold chat_try in Hbody.
    repeat (apply bind_ok in Hbody as (? & ? & _ & Hbody)).
    by injection Hbody as <- _.
  - eexists _, _. split; [reflexivity |]. by right.
Qed.

(** X9. On a request that passes the gate with a JSON object for body, the
    chat route answers 400 exactly when the message or the session id is
    missing or falsy; it does so before any call to the store or to the
    model, and otherwise answers 200 or 500. *)
Theorem chat_required_fields (request : request) user (w : world) d :
  authenticated request user ->
  json request = PDict d ->
  exists resp w',
    chat request w = (Ok resp, w')
    /\ (status resp = 400%nat
        <-> truthy (dict_get d "message" PNone) = false
            \/ truthy (dict_get d "session_id" PNone) = false)
    /\ (status resp = 400%nat ->
        db w' = db w
        /\ exists id_token, log w' = (log w ++ [EvVerifyIdToken id_token])%list)
    /\ (status resp = 400%nat \/ status resp = 200%nat \/ status resp = 500%nat).
Proof.
  intros Hauth Hjson.
  destruct (truthy (dict_get d "message" PNone)) eqn:Hmessage;
    [destruct (truthy (dict_get d "session_id" PNone)) eqn:Hsession |].
  - destruct (chat_fields_present request user w d Hauth Hjson Hmessage Hsession)
      as (resp & w' & Hrun & Hstatus).
    exists resp, w'. split; [done |].
    split; [| split; [| by right]].
    + split; [destruct Hstatus; congruence | by intros [|]].
    + destruct Hstatus; congruence.
  - destruct (chat_missing_fields request user w d Hauth Hjson (or_intror Hsession))
      as [id_token Hrun].
    eexists _, _. split; [exact Hrun |]. simpl.
    split; [split; [by right | done] |]. split; [| by left].
    intros _. split; [done | by exists id_token].
  - destruct (chat_missing_fields request user w d Hauth Hjson (or_introl Hmessage))
      as [id_token Hrun].
    eexists _, _. split; [exact Hrun |]. simpl.
    split; [split; [by left | done] |]. split; [| by left].
    intros _. split; [done | by exists id_token].
Qed.

End ChatRuns.

(** ** The conversation and the reply *)

Lemma newest_first_latest (old : list message_doc) (d : message_doc) :
  (forall m, m ∈ old -> m_timestamp m < m_timestamp d) ->
  exists rest, newest_first (old ++ [d]) = d :: rest.
Proof.
  intros Hlatest. unfold newest_first.
  pose proof (merge_sort_Permutation (flip message_le) (old ++ [d])) as Hperm.
  pose proof (Sorted_merge_sort (flip message_le) (old ++ [d])) as Hsorted.
  destruct (merge_sort (flip message_le) (old ++ [d])) as [| x rest].
  { apply Permutation_nil_l in Hperm. by destruct old. }
  exists rest. f_equal.
  assert (x ∈ (old ++ [d])%list) as Hx by (rewrite <- Hperm; left).
  apply elem_of_app in Hx as [Hx | Hx]; [| by apply list_elem_of_singleton in Hx].
  exfalso. pose proof (Hlatest x Hx) as Hlt.
  assert (d ∈ x :: rest) as Hd.
  { rewrite Hperm. apply elem_of_app. right. by left. }
  apply elem_of_cons in Hd as [-> | Hd]; [lia |].
  assert (Transitive (fun a b => m_timestamp b <= m_timestamp a)) as Htrans
    by (intros a b c ? ?; lia).
  assert (StronglySorted (fun a b => m_timestamp b <= m_timestamp a) (x :: rest)) as Hstrong.
  { apply Sorted_StronglySorted; [done |].
    eapply Sorted_weaken; [| exact Hsorted].
    intros a b Hab. by apply message_le_timestamp. }
  apply StronglySorted_inv in Hstrong as [_ Hall].
  rewrite Forall_forall in Hall. specialize (Hall d Hd). lia.
Qed.

Lemma spec_conversation_length instruction stored :
  length (spec_conversation instruction stored) = (2 + min 20 (length stored))%nat.
Proof.
  unfold spec_conversation, newest_first. cbn [app length].
  rewrite length_map, length_rev, length_take.
  by rewrite (Permutation_length (merge_sort_Permutation _ _)).
Qed.

Section Conversation.
Context `{Services}.

(** X10. The conversation of a chat request is bounded: for a message that
    is a non-empty string and a session id that is a non-empty string
    without ["/"], it holds the two fixed opening turns and at most twenty
    turns of history, twenty exactly as soon as the session has nineteen
    messages or more before the request. *)
Theorem chat_conversation_bounded (request : request) user (w : world) d message sid
    instruction :
  authenticated request user ->
  json request = PDict d ->
  dict_get d "message" PNone = PStr message ->
  message <> "" ->
  dict_get d "session_id" PNone = PStr sid ->
  sid <> "" ->
  occurs "/" sid = false ->
  system_prompts_get (dict_get d "mode" (PStr "general")) general_prompt = Ok instruction ->
  exists conversation,
    sent_conversations (log (chat request w).2)
    = (sent_conversations (log w) ++ [conversation])%list
    /\ take 2 conversation
       = [ {| role := "user"; parts := [PStr instruction] |};
           {| role := "model"; parts := [PStr ACKNOWLEDGEMENT] |} ]
    /\ length conversation
       = (2 + min 20 (S (length (messages_of (db w) (uid user) sid))))%nat
    /\ (length conversation <= 22)%nat.
Proof.
  intros Hauth Hjson Hmessage Hne Hsession Hsid Hocc Hmode.
  destruct (chat_accepted request user w d (PStr message) sid Hauth Hjson Hmessage
              (truthy_str message Hne) (encodable_str message) Hsession Hsid Hocc)
    as [id_token Hrun].
  cbv zeta in Hrun. rewrite Hmode in Hrun. rewrite Hrun. clear Hrun.
  exists (spec_conversation instruction
            (messages_of (db w) (uid user) sid
             ++ [added_message (db w) "user" (PStr message)])).
  split; [| split; [| split]].
  - destruct (generate_content _ ≫= reply_text) as [[a | t] | e];
      [destruct (encodable a) | |]; cbn [snd log];
      rewrite !sent_conversations_app; cbn; by rewrite !app_nil_r.
  - reflexivity.
  - rewrite spec_conversation_length, length_app. cbn [length].
    by rewrite Nat.add_1_r.
  - rewrite spec_conversation_length. lia.
Qed.

(** X11. When the server clock is ahead of every message already stored
    for the session, the conversation sent to the model for a message that
    is a non-empty string, in a session whose id is a non-empty string
    without ["/"], ends with that message, as a ["user"] turn. *)
Theorem chat_conversation_ends_with_message (request : request) user (w : world) d message
    sid instruction :
  authenticated request user ->
  json request = PDict d ->
  dict_get d "message" PNone = PStr message ->
  message <> "" ->
  dict_get d "session_id" PNone = PStr sid ->
  sid <> "" ->
  occurs "/" sid = false ->
  system_prompts_get (dict_get d "mode" (PStr "general")) general_prompt = Ok instruction ->
  (forall m, m ∈ messages_of (db w) (uid user) sid ->
     m_timestamp m < server_timestamp (db w)) ->
  exists conversation,
    sent_conversations (log (chat request w).2)
    = (sent_conversations (log w) ++ [conversation])%list
    /\ last conversation = Some {| role := "user"; parts := [PStr message] |}.
Proof.
  intros Hauth Hjson Hmessage Hne Hsession Hsid Hocc Hmode Hclock.
  destruct (chat_accepted request user w d (PStr message) sid Hauth Hjson Hmessage
              (truthy_str message Hne) (encodable_str message) Hsession Hsid Hocc)
    as [id_token Hrun].
  cbv zeta in Hrun. rewrite Hmode in Hrun. rewrite Hrun. clear Hrun.
  exists (spec_conversation instruction
            (messages_of (db w) (uid user) sid
             ++ [added_message (db w) "user" (PStr message)])).
  split.
  - destruct (generate_content _ ≫= reply_text) as [[a | t] | e];
      [destruct (encodable a) | |]; cbn [snd log];
      rewrite !sent_conversations_app; cbn; by rewrite !app_nil_r.
  - unfold spec_conversation.
    destruct (newest_first_latest (messages_of (db w) (uid user) sid)
                (added_message (db w) "user" (PStr message)) Hclock)
      as [rest ->].
    cbn [take rev]. rewrite map_app. cbn [map]. rewrite app_assoc. by rewrite last_snoc.
Qed.

(** X12. A response of the model without usable text, the [text] attribute
    missing or falsy (the empty string), does not produce an empty reply:
    the request (a non-empty string for message, a non-empty string without
    ["/"] for session id) is answered 500 and the session keeps the user's
    message without an assistant message after it. *)
Theorem chat_reply_without_text (request : request) user (w : world) d message sid
    instruction t :
  authenticated request user ->
  json request = PDict d ->
  dict_get d "message" PNone = PStr message ->
  message <> "" ->
  dict_get d "session_id" PNone = PStr sid ->
  sid <> "" ->
  occurs "/" sid = false ->
  system_prompts_get (dict_get d "mode" (PStr "general")) general_prompt = Ok instruction ->
  let d_user := added_message (db w) "user" (PStr message) in
  let old := messages_of (db w) (uid user) sid in
  generate_content (spec_conversation instruction (old ++ [d_user])) = Ok (Object t) ->
  t = AttrMissing \/ (exists v, t = AttrValue v /\ truthy v = false) ->
  exists resp w',
    chat request w = (Ok resp, w')
    /\ status resp = 500%nat
    /\ messages_of (db w') (uid user) sid = (old ++ [d_user])%list.
Proof.
  intros Hauth Hjson Hmessage Hne Hsession Hsid Hocc Hmode d_user old Hgen Htext.
  destruct (chat_accepted request user w d (PStr message) sid Hauth Hjson Hmessage
              (truthy_str message Hne) (encodable_str message) Hsession Hsid Hocc)
    as [id_token Hrun].
  cbv zeta in Hrun. rewrite Hmode in Hrun. fold d_user old in Hrun.
  rewrite Hgen in Hrun. rewrite Hrun. clear Hrun.
  assert (reply_text (Object t) = Ok (Object t)) as Hreply.
  { destruct Htext as [-> | (v & -> & Hv)]; [done |].
    unfold reply_text. simpl. unfold mbind, outcome_bind. by rewrite Hv. }
  unfold mbind, outcome_bind. rewrite Hreply.
  eexists _, _. split; [reflexivity |]. split; [done |].
  apply messages_of_with_message.
Qed.

(** X13. When the model returns a plain object with a [candidates] list
    whose first entry is an object, the reply is the [content] of that
    entry when it is a string, and the empty string when the entry has
    none: it is stored as the assistant's message and returned with status
    200 (for a message that is a non-empty string and a session id that is
    a non-empty string without ["/"]). *)
Theorem chat_reply_from_candidates (request : request) user (w : world) d message sid
    instruction r c cs text :
  authenticated request user ->
  json request = PDict d ->
  dict_get d "message" PNone = PStr message ->
  message <> "" ->
  dict_get d "session_id" PNone = PStr sid ->
  sid <> "" ->
  occurs "/" sid = false ->
  system_prompts_get (dict_get d "mode" (PStr "general")) general_prompt = Ok instruction ->
  let d_user := added_message (db w) "user" (PStr message) in
  let old := messages_of (db w) (uid user) sid in
  let s1 := with_message (db w) (uid user) sid d_user in
  generate_content (spec_conversation instruction (old ++ [d_user])) = Ok (Plain (PDict r)) ->
  assoc "candidates" r = Some (PList (PDict c :: cs)) ->
  dict_get c "content" (PStr "") = PStr text ->
  exists w',
    chat request w
    = (Ok {| body := PDict [("response", PStr text)]; status := 200 |}, w')
    /\ messages_of (db w') (uid user) sid
       = (old ++ [d_user; added_message s1 "assistant" (PStr text)])%list.
Proof.
  intros Hauth Hjson Hmessage Hne Hsession Hsid Hocc Hmode d_user old s1 Hgen Hcandidates
    Hcontent.
  destruct (chat_accepted request user w d (PStr message) sid Hauth Hjson Hmessage
              (truthy_str message Hne) (encodable_str message) Hsession Hsid Hocc)
    as [id_token Hrun].
  cbv zeta in Hrun. rewrite Hmode in Hrun. fold d_user old s1 in Hrun.
  rewrite Hgen in Hrun. rewrite Hrun. clear Hrun.
  assert (reply_text (Plain (PDict r)) = Ok (Plain (PStr text))) as Hreply.
  { unfold reply_text. simpl. rewrite Hcandidates. simpl.
    unfold mbind, outcome_bind, mret, outcome_ret. by rewrite Hcontent. }
  unfold mbind, outcome_bind. rewrite Hreply. cbn [encodable].
  eexists. split; [reflexivity |]. cbn [db].
  rewrite messages_of_with_message. unfold s1. rewrite messages_of_with_message.
  by rewrite <- app_assoc.
Qed.

End Conversation.

(** ** Sessions and messages over several requests *)

#[global] Instance message_le_transitive : Transitive message_le.
Proof.
  intros a b c. unfold message_le, message_leb. intros Hab Hbc.
  apply orb_true_iff in Hab as [Hab | Hab]; apply orb_true_iff in Hbc as [Hbc | Hbc];
    apply orb_true_iff.
  - left. apply Z.ltb_lt in Hab, Hbc. apply Z.ltb_lt. lia.
  - left. apply andb_true_iff in Hbc as [Hbc _].
    apply Z.ltb_lt in Hab. apply Z.eqb_eq in Hbc. apply Z.ltb_lt. lia.
  - left. apply andb_true_iff in Hab as [Hab _].
    apply Z.eqb_eq in Hab. apply Z.ltb_lt in Hbc. apply Z.ltb_lt. lia.
  - right. apply andb_true_iff in Hab as [Hab Hab'].
    apply andb_true_iff in Hbc as [Hbc Hbc'].
    apply Z.eqb_eq in Hab, Hbc. apply andb_true_iff. split.
    + apply Z.eqb_eq. lia.
    + by apply (string_leb_trans _ (m_id b)).
Qed.

(** In a sorted list, a message later than all the others comes last. *)
Lemma sorted_latest_last (l m : list message_doc) (d : message_doc) :
  StronglySorted message_le l ->
  l ≡ₚ m ++ [d] ->
  (forall x, x ∈ m -> m_timestamp x < m_timestamp d) ->
  exists l', l = (l' ++ [d])%list /\ l' ≡ₚ m /\ StronglySorted message_le l'.
Proof.
  intros Hsorted Hperm Hlatest.
  assert (d ∈ l) as Hd by (rewrite Hperm; apply elem_of_app; right; by left).
  apply list_elem_of_split in Hd as (l1 & l2 & ->).
  apply Permutation_app_inv in Hperm. rewrite app_nil_r in Hperm.
  destruct l2 as [| y l2].
  - rewrite app_nil_r in Hperm. exists l1. split; [done |]. split; [done |].
    by apply StronglySorted_app_1_l in Hsorted.
  - exfalso.
    assert (y ∈ m) as Hy by (rewrite <- Hperm; apply elem_of_app; right; by left).
    apply Hlatest in Hy.
    apply StronglySorted_app_1_r, StronglySorted_inv in Hsorted as [_ Hall].
    apply Forall_cons in Hall as [Hdy _]. apply message_le_timestamp in Hdy. lia.
Qed.

Section Lifecycle.
Context `{Services}.

(** X14. Fetching the messages of a session under which nothing was ever
    stored is not an error: whether or not a session document exists, the
    answer is 200 with the empty list, and the store is left as it was. *)
Theorem get_session_messages_unknown session_id (request : request) user (w : world) :
  authenticated request user ->
  messages (db w) !! (uid user, session_id) = None ->
  exists w',
    get_session_messages session_id request w
    = (Ok {| body := PList []; status := 200 |}, w')
    /\ db w' = db w.
Proof.
  intros Hauth Hnone.
  destruct (get_session_messages_authenticated session_id request user w Hauth)
    as [id_token Hrun].
  eexists. split.
  - rewrite Hrun. unfold messages_of. rewrite Hnone. reflexivity.
  - reflexivity.
Qed.

(** X15. Deleting a session that does not exist is not an error: the
    answer is the same success, and the store is left exactly as it was.
    In particular deleting twice is the same as deleting once. *)
Theorem delete_session_absent session_id (request : request) user (w : world) :
  authenticated request user ->
  sessions (db w) !! (uid user, session_id) = None ->
  exists w',
    delete_session session_id request w
    = (Ok {| body := PDict [("success", PBool true)]; status := 200 |}, w')
    /\ db w' = db w.
Proof.
  intros Hauth Hnone.
  destruct (delete_session_authenticated session_id request user w Hauth)
    as [id_token Hrun].
  eexists. split; [exact Hrun |]. simpl. rewrite delete_id by done. by destruct (db w).
Qed.

(** X16. A session that was just created is listed: the id and the name
    that create-session returns are an entry of the next listing of the
    same user, whether the name was supplied (a non-empty string without
    ["/"]) or generated. *)
Theorem created_session_listed (creator lister : request) user (w : world) v :
  authenticated creator user ->
  authenticated lister user ->
  requested_name creator = Ok v ->
  (exists name, v = PStr name /\ name <> "" /\ occurs "/" name = false)
  \/ truthy v = false ->
  exists session_id name w1 entries w2,
    create_session creator w
    = (Ok {| body := PDict [("session_id", PStr session_id); ("name", name)];
             status := 200 |}, w1)
    /\ get_chat_sessions lister w1 = (Ok {| body := PList entries; status := 200 |}, w2)
    /\ PDict [("id", PStr session_id); ("name", name)] ∈ entries.
Proof.
  intros Hcreator Hlister Hname Hv.
  assert (exists session_id name w1,
            create_session creator w
            = (Ok {| body := PDict [("session_id", PStr session_id); ("name", name)];
                     status := 200 |}, w1)
            /\ exists t, sessions (db w1) !! (uid user, session_id)
                         = Some {| s_name := Some name; s_created_at := t |})
    as (session_id & name & w1 & Hrun & t & Hstored).
  { destruct Hv as [(n & -> & Hne & Hocc) | Hfalsy].
    - destruct (create_session_named creator user w n Hcreator Hname Hne Hocc) as [? Hrun].
      eexists _, _, _. split; [exact Hrun |]. eexists. simpl. apply lookup_insert_eq.
    - destruct (create_session_unnamed creator user w v Hcreator Hname Hfalsy) as [? Hrun].
      eexists _, _, _. split; [exact Hrun |]. eexists. simpl. apply lookup_insert_eq. }
  destruct (get_chat_sessions_authenticated lister user w1 Hlister) as [? Hlist].
  exists session_id, name, w1. eexists _, _. split; [done |]. split; [exact Hlist |].
  apply list_elem_of_fmap.
  exists (session_id, {| s_name := Some name; s_created_at := t |}). split; [done |].
  rewrite merge_sort_Permutation. by apply elem_of_sessions_of.
Qed.

(** X17. Messages outlive their session and come back with its name:
    after a session is deleted and a session is created again under the
    same name, the fetch of its messages answers exactly as before the
    deletion.  The name is the id of the deleted session, a segment of the
    URL of the delete request: it has no ["/"]. *)
Theorem deleted_session_messages_resurface (deleter creator reader : request) user
    (w : world) name :
  authenticated deleter user ->
  authenticated creator user ->
  authenticated reader user ->
  requested_name creator = Ok (PStr name) ->
  name <> "" ->
  occurs "/" name = false ->
  let w1 := (delete_session name deleter w).2 in
  let w2 := (create_session creator w1).2 in
  is_Some (sessions (db w2) !! (uid user, name))
  /\ (get_session_messages name reader w2).1 = (get_session_messages name reader w).1.
Proof.
  intros Hdeleter Hcreator Hreader Hname Hne Hocc w1 w2.
  destruct (delete_session_authenticated name deleter user w Hdeleter) as [? Hdelete].
  destruct (create_session_named creator user w1 name Hcreator Hname Hne Hocc)
    as [? Hcreate].
  assert (messages (db w2) = messages (db w)) as Hmessages.
  { unfold w2. rewrite Hcreate. simpl. unfold w1. by rewrite Hdelete. }
  split.
  - unfold w2. rewrite Hcreate. simpl. rewrite lookup_insert_eq. by eexists.
  - destruct (get_session_messages_authenticated name reader user w2 Hreader) as [? ->].
    destruct (get_session_messages_authenticated name reader user w Hreader) as [? ->].
    simpl. unfold messages_of. by rewrite Hmessages.
Qed.

(** X18. After a chat request that the model answered with a text (the
    message a non-empty string, the session id a non-empty string without
    ["/"]), and with a server clock that moves forward, the fetch of the
    session's messages returns the earlier messages, then the message of
    the request, then the reply of the model, last. *)
Theorem chat_then_fetch (request reader : request) user (w : world) d message sid
    instruction response text :
  authenticated request user ->
  authenticated reader user ->
  json request = PDict d ->
  dict_get d "message" PNone = PStr message ->
  message <> "" ->
  dict_get d "session_id" PNone = PStr sid ->
  sid <> "" ->
  occurs "/" sid = false ->
  system_prompts_get (dict_get d "mode" (PStr "general")) general_prompt = Ok instruction ->
  let d_user := added_message (db w) "user" (PStr message) in
  let old := messages_of (db w) (uid user) sid in
  let s1 := with_message (db w) (uid user) sid d_user in
  let d_assistant := added_message s1 "assistant" (PStr text) in
  generate_content (spec_conversation instruction (old ++ [d_user])) = Ok response ->
  reply_text response = Ok (Plain (PStr text)) ->
  (forall m, m ∈ old -> m_timestamp m < server_timestamp (db w)) ->
  server_timestamp (db w) < server_timestamp s1 ->
  exists earlier w2,
    get_session_messages sid reader (chat request w).2
    = (Ok {| body := PList (map (fun m => PDict (message_to_dict m))
                            (earlier ++ [d_user; d_assistant]));
             status := 200 |}, w2)
    /\ earlier ≡ₚ old
    /\ Sorted (fun a b => m_timestamp a <= m_timestamp b) earlier.
Proof.
  intros Hauth Hreader Hjson Hmessage Hne Hsession Hsid Hocc Hmode d_user old s1 d_assistant
    Hgen Hreply Hclock Htick.
  destruct (chat_accepted request user w d (PStr message) sid Hauth Hjson Hmessage
              (truthy_str message Hne) (encodable_str message) Hsession Hsid Hocc)
    as [id_token Hrun].
  cbv zeta in Hrun. rewrite Hmode in Hrun. fold d_user old s1 in Hrun.
  rewrite Hgen in Hrun. unfold mbind, outcome_bind in Hrun. rewrite Hreply in Hrun.
  cbn [encodable] in Hrun. fold d_assistant in Hrun. rewrite Hrun. clear Hrun. cbn [snd].
  match goal with |- context [get_session_messages sid reader ?x] => set (w1 := x) end.
  destruct (get_session_messages_authenticated sid reader user w1 Hreader) as [? Hfetch].
  assert (messages_of (db w1) (uid user) sid = ((old ++ [d_user]) ++ [d_assistant])%list)
    as Hstored.
  { unfold w1. cbn [db]. rewrite messages_of_with_message. unfold s1.
    by rewrite messages_of_with_message. }
  rewrite Hstored in Hfetch.
  pose proof (StronglySorted_merge_sort message_le ((old ++ [d_user]) ++ [d_assistant]))
    as Hsorted.
  pose proof (merge_sort_Permutation message_le ((old ++ [d_user]) ++ [d_assistant]))
    as Hperm.
  destruct (sorted_latest_last _ _ _ Hsorted Hperm) as (l1 & Hl1 & Hperm1 & Hsorted1).
  { intros m0 [Hm0 | Hm0%list_elem_of_singleton]%elem_of_app.
    - apply Hclock in Hm0. simpl. lia.
    - subst m0. done. }
  destruct (sorted_latest_last _ _ _ Hsorted1 Hperm1) as (l2 & Hl2 & Hperm2 & Hsorted2).
  { intros m0 Hm0. by apply Hclock in Hm0. }
  exists l2. eexists. split; [| split; [done |]].
  - rewrite Hfetch, Hl1, Hl2, <- app_assoc. reflexivity.
  - apply StronglySorted_Sorted in Hsorted2.
    eapply Sorted_weaken; [apply message_le_timestamp | done].
Qed.

End Lifecycle.

(** ** Names, labels and modes *)

Lemma digit_inj a b : digit a = digit b -> (a mod 10 = b mod 10)%nat.
Proof.
  unfold digit. intros Heq. apply (f_equal nat_of_ascii) in Heq.
  rewrite !nat_ascii_embedding in Heq.
  - lia.
  - pose proof (Nat.mod_upper_bound b 10). lia.
  - pose proof (Nat.mod_upper_bound a 10). lia.
Qed.

Lemma decimal_step a b :
  (a mod 10 = b mod 10)%nat -> (a / 10 = b / 10)%nat -> a = b.
Proof.
  intros Hmod Hdiv. rewrite (Nat.div_mod_eq a 10), (Nat.div_mod_eq b 10). congruence.
Qed.

Lemma zero_pad2_inj a b :
  (a < 100)%nat -> (b < 100)%nat -> zero_pad2 a = zero_pad2 b -> a = b.
Proof.
  unfold zero_pad2. intros Ha Hb Heq.
  assert ((a / 10) mod 10 = (b / 10) mod 10)%nat as H1
    by (apply digit_inj; injection Heq as H1 _; exact H1).
  assert (a mod 10 = b mod 10)%nat as H2
    by (apply digit_inj; injection Heq as _ H2; exact H2).
  apply decimal_step; [done |].
  rewrite !Nat.mod_small in H1; [done | |]; apply Nat.Div0.div_lt_upper_bound; lia.
Qed.

Lemma zero_pad4_inj a b :
  (a < 100 * 100)%nat -> (b < 100 * 100)%nat -> zero_pad4 a = zero_pad4 b -> a = b.
Proof.
  unfold zero_pad4, zero_pad2. intros Ha Hb Heq.
  assert ((a / 1000) mod 10 = (b / 1000) mod 10)%nat as H1
    by (apply digit_inj; injection Heq as H1 _ _ _; exact H1).
  assert ((a / 100) mod 10 = (b / 100) mod 10)%nat as H2
    by (apply digit_inj; injection Heq as _ H2 _ _; exact H2).
  assert ((a / 10) mod 10 = (b / 10) mod 10)%nat as H3
    by (apply digit_inj; injection Heq as _ _ H3 _; exact H3).
  assert (a mod 10 = b mod 10)%nat as H4
    by (apply digit_inj; injection Heq as _ _ _ H4; exact H4).
  assert (a / 1000 = b / 1000)%nat as Hthousands.
  { rewrite !Nat.mod_small in H1; [done | |]; apply Nat.Div0.div_lt_upper_bound; lia. }
  assert (a / 100 = b / 100)%nat as Hhundreds.
  { apply decimal_step; [done |]. rewrite !Nat.Div0.div_div. exact Hthousands. }
  assert (a / 10 = b / 10)%nat as Htens.
  { apply decimal_step; [done |]. rewrite !Nat.Div0.div_div. exact Hhundreds. }
  by apply decimal_step.
Qed.

Lemma strftime_minute_fields d1 d2 :
  strftime_minute d1 = strftime_minute d2 ->
  zero_pad4 (year d1) = zero_pad4 (year d2)
  /\ zero_pad2 (month d1) = zero_pad2 (month d2)
  /\ zero_pad2 (day d1) = zero_pad2 (day d2)
  /\ zero_pad2 (hour d1) = zero_pad2 (hour d2)
  /\ zero_pad2 (minute d1) = zero_pad2 (minute d2).
Proof.
  unfold strftime_minute, zero_pad4, zero_pad2. cbv [String.append]. intros Heq.
  injection Heq as H1 H2 H3 H4 H5 H6 H7 H8 H9 H10 H11 H12.
  repeat split; repeat (f_equal; try assumption).
Qed.

(** X19. The default name of a session tells the minute of its creation:
    the labels of two dates are equal only if the dates are the same
    minute, and the label is always ["Chat - "] followed by sixteen
    characters. *)
Theorem default_label_minute (d1 d2 : datetime) :
  valid_datetime d1 -> valid_datetime d2 ->
  ("Chat - " +:+ strftime_minute d1 = "Chat - " +:+ strftime_minute d2 <-> d1 = d2)
  /\ String.length ("Chat - " +:+ strftime_minute d1) = 23%nat.
Proof.
  intros (Hy1 & Hm1 & Hd1 & Hh1 & Hn1) (Hy2 & Hm2 & Hd2 & Hh2 & Hn2).
  split; [| reflexivity]. split; [| by intros ->].
  intros Heq. assert (strftime_minute d1 = strftime_minute d2) as Hlabel
    by (by apply (inj (String.append "Chat - "))).
  apply strftime_minute_fields in Hlabel as (Hy & Hm & Hd & Hh & Hn).
  apply zero_pad4_inj in Hy; [| lia | lia].
  apply zero_pad2_inj in Hm; [| lia | lia].
  apply zero_pad2_inj in Hd; [| lia | lia].
  apply zero_pad2_inj in Hh; [| lia | lia].
  apply zero_pad2_inj in Hn; [| lia | lia].
  destruct d1, d2. simpl in *. congruence.
Qed.

Lemma substring_prefix n s : String.prefix (String.substring 0 n s) s = true.
Proof.
  revert s. induction n as [| n IH]; intros [| c s]; simpl; try done.
  destruct (ascii_dec c c); [apply IH | done].
Qed.

Lemma substring_length n s :
  String.length (String.substring 0 n s) = min n (String.length s).
Proof.
  revert s. induction n as [| n IH]; intros [| c s]; simpl; try done.
  by rewrite IH.
Qed.

Section Names.
Context `{Services}.

(** X20. A session document without a name is still listed: its entry
    carries the id, and for name ["Session "] followed by the first five
    characters of the id, the whole id when it is shorter. *)
Theorem unnamed_session_listed (request : request) user (w : world) session_id d :
  authenticated request user ->
  sessions (db w) !! (uid user, session_id) = Some d ->
  s_name d = None ->
  exists entries w' p,
    get_chat_sessions request w = (Ok {| body := PList entries; status := 200 |}, w')
    /\ PDict [("id", PStr session_id); ("name", PStr ("Session " +:+ p))] ∈ entries
    /\ String.prefix p session_id = true
    /\ String.length p = min 5 (String.length session_id).
Proof.
  intros Hauth Hstored Hname.
  destruct (get_chat_sessions_authenticated request user w Hauth) as [? Hrun].
  eexists _, _, (String.substring 0 5 session_id). split; [exact Hrun |].
  split; [| split; [apply substring_prefix | apply substring_length]].
  apply list_elem_of_fmap. exists (session_id, d). split.
  - unfold session_entry. simpl. by rewrite Hname.
  - rewrite merge_sort_Permutation. by apply elem_of_sessions_of.
Qed.

(** X21. A session name that is already taken is not refused: the
    document of that name is replaced, with the new creation time, the
    request answers 200 as for a new session, the user has no more
    sessions than before, and the messages stored under the name stay.
    The name is the id of a document of the sessions collection: it has no
    ["/"]. *)
Theorem create_session_overwrites (request : request) user (w : world) name d :
  authenticated request user ->
  requested_name request = Ok (PStr name) ->
  name <> "" ->
  occurs "/" name = false ->
  sessions (db w) !! (uid user, name) = Some d ->
  exists w',
    create_session request w
    = (Ok {| body := PDict [("session_id", PStr name); ("name", PStr name)];
             status := 200 |}, w')
    /\ sessions (db w') !! (uid user, name)
       = Some {| s_name := Some (PStr name); s_created_at := server_timestamp (db w) |}
    /\ size (sessions (db w')) = size (sessions (db w))
    /\ messages (db w') = messages (db w).
Proof.
  intros Hauth Hname Hne Hocc Htaken.
  destruct (create_session_named request user w name Hauth Hname Hne Hocc) as [? Hrun].
  eexists. split; [exact Hrun |]. simpl.
  split; [apply lookup_insert_eq |]. split; [| done].
  by eapply map_size_insert_Some.
Qed.

(** X22. Create-session writes all or nothing: whatever the request, it
    answers; when the answer is 200 exactly one document of the
    authenticated user was set, and when it is not the store is left as it
    was.  Unless the requested name is a string with a ["/"], which the
    store reads as a path, the document set is one of the sessions
    collection, under the id that the answer carries, and the messages are
    left as they were. *)
Theorem create_session_all_or_nothing (request : request) (w : world) :
  exists resp w',
    create_session request w = (Ok resp, w')
    /\ (status resp = 200%nat ->
        exists user ref doc,
          authenticated request user
          /\ db w' = with_session (db w) (uid user) ref doc
          /\ (exists name, body resp = PDict [("session_id", PStr (ref_id ref)); ("name", name)])
          /\ ((forall name, requested_name request = Ok (PStr name) ->
                  occurs "/" name = false) ->
              sessions (db w') = <[(uid user, ref_id ref) := doc]> (sessions (db w))
              /\ messages (db w') = messages (db w)))
    /\ (status resp <> 200%nat -> db w' = db w).
Proof.
  destruct (verify_token_cases request w)
    as [(user & id_token & Hauth & Hgate) | (Hrej & _)].
  - destruct (create_session_run request user w Hauth) as [tok Hrun].
    cbv zeta in Hrun. rewrite Hrun. clear Hrun.
    destruct (requested_name request) as [v | e] eqn:Hname.
    2: { eexists _, _. split; [reflexivity |]. simpl. split; done. }
    destruct (document (db w) (if truthy v then v else PNone)) as [ref | e] eqn:Hdoc.
    2: { eexists _, _. split; [reflexivity |]. simpl. split; done. }
    eexists _, _. split; [reflexivity |]. cbn [db status body]. split; [| done].
    intros _. eexists user, ref, _. split; [done |]. split; [reflexivity |].
    split; [by eexists |].
    intros Hplain.
    assert (exists id, ref = SessionRef id) as [id ->]; [| done].
    destruct (truthy v) eqn:Htruthy.
    + destruct v as [| | | name | | |]; try done.
      rewrite (document_plain (db w) name (Hplain name eq_refl)) in Hdoc.
      injection Hdoc as <-. by eexists.
    + injection Hdoc as <-. by eexists.
  - destruct (verify_token_rejected request w Hrej) as (evs & Hgate & _).
    eexists _, _. unfold create_session. unfold mbind at 1, M_bind at 1. rewrite Hgate.
    split; [reflexivity |]. simpl. split; done.
Qed.

(** X23. For every mode that can be a key (a string, a number, a boolean,
    null) and for a request without the field, the instruction selected is
    that of the mode when the mode is one of the three names of the table,
    and the general instruction otherwise. *)
Theorem mode_selects_instruction (d : list (string * pyval)) :
  let mode := dict_get d "mode" (PStr "general") in
  hashable mode = true ->
  system_prompts_get mode general_prompt
  = Ok (default "" (spec_instruction (mode_name mode)))
  /\ (assoc "mode" d = None ->
      system_prompts_get mode general_prompt = Ok general_prompt)
  /\ (forall m, mode = PStr m ->
      m <> "coding_coach" -> m <> "debugging_assistant" ->
      system_prompts_get mode general_prompt = Ok general_prompt)
  /\ (forall m p, mode = PStr m -> assoc m SYSTEM_PROMPTS = Some p ->
      system_prompts_get mode general_prompt = Ok p).
Proof.
  intros mode Hhash. split; [| split; [| split]].
  - destruct mode eqn:Hmode; try done. apply system_prompts_get_string.
  - intros Habsent. unfold mode, dict_get. by rewrite Habsent.
  - intros m -> H1 H2. rewrite system_prompts_get_string. unfold spec_instruction.
    destruct (String.eqb_spec m "coding_coach"); [done |].
    by destruct (String.eqb_spec m "debugging_assistant").
  - intros m p -> Hp. unfold system_prompts_get. cbn [hashable]. by rewrite Hp.
Qed.

End Names.

(** ** Instances of the further properties *)

Lemma only_chat_calls_model_witness :
  exists evs,
    log (handle (H := Demo.services) CreateSession (Demo.post PNone) Demo.busy_world).2
    = (log Demo.busy_world ++ evs)%list
    /\ sent_conversations evs = [].
Proof.
  apply (only_chat_calls_model (H := Demo.services) CreateSession (Demo.post PNone)
           Demo.busy_world).
  discriminate.
Defined.

Lemma other_users_untouched_witness :
  changes (only_under "alice")
          (fun e => forall u, event_user e = Some u -> u = "alice")
          Demo.busy_world
          (handle (H := Demo.services) Chat (Demo.post Demo.hello) Demo.busy_world).2.
Proof.
  apply (other_users_untouched (H := Demo.services) Chat (Demo.post Demo.hello)
           {| uid := "alice" |} Demo.busy_world).
  exists "Bearer good", "good". repeat split; reflexivity.
Defined.

Lemma reads_unaffected_by_other_users_witness :
  let w' := (handle (H := Demo2.services) Chat (Demo2.post_as_bob Demo.hello)
               Demo.busy_world).2 in
  (get_chat_sessions (H := Demo2.services) (Demo.post PNone) w').1
  = (get_chat_sessions (H := Demo2.services) (Demo.post PNone) Demo.busy_world).1
  /\ (get_session_messages (H := Demo2.services) "s1" (Demo.post PNone) w').1
     = (get_session_messages (H := Demo2.services) "s1" (Demo.post PNone) Demo.busy_world).1.
Proof.
  apply (reads_unaffected_by_other_users (H := Demo2.services) Chat
           (Demo2.post_as_bob Demo.hello) (Demo.post PNone)
           {| uid := "bob" |} {| uid := "alice" |} "s1" Demo.busy_world).
  - exists "Bearer bobs", "bobs". repeat split; reflexivity.
  - exists "Bearer good", "good". repeat split; reflexivity.
  - discriminate.
Defined.

Lemma bearer_token_extracted_witness :
  verify_token (H := Demo.services) (Demo.post PNone) Demo.empty_world
  = (match verify_id_token (Services := Demo.services) "good" with
     | Ok user => Ok (Some user)
     | Raise _ => Ok None
     end,
     {| db := db Demo.empty_world;
        log := log Demo.empty_world ++ [EvVerifyIdToken "good"] |}).
Proof.
  apply (bearer_token_extracted (H := Demo.services) (Demo.post PNone) Demo.empty_world
           "" "good"); reflexivity.
Defined.

Lemma chat_required_fields_witness :
  let d := [("message", PStr ""); ("session_id", PStr "s1")] in
  exists resp w',
    chat (H := Demo.services) (Demo.post (PDict d)) Demo.busy_world = (Ok resp, w')
    /\ (status resp = 400%nat
        <-> truthy (dict_get d "message" PNone) = false
            \/ truthy (dict_get d "session_id" PNone) = false)
    /\ (status resp = 400%nat ->
        db w' = db Demo.busy_world
        /\ exists id_token,
             log w' = (log Demo.busy_world ++ [EvVerifyIdToken id_token])%list)
    /\ (status resp = 400%nat \/ status resp = 200%nat \/ status resp = 500%nat).
Proof.
  apply (chat_required_fields (H := Demo.services)
           (Demo.post (PDict [("message", PStr ""); ("session_id", PStr "s1")]))
           {| uid := "alice" |} Demo.busy_world).
  - exists "Bearer good", "good". repeat split; reflexivity.
  - reflexivity.
Defined.

Lemma chat_conversation_bounded_witness :
  exists conversation,
    sent_conversations
      (log (chat (H := Demo.services) (Demo.post Demo.hello) Demo.busy_world).2)
    = (sent_conversations (log Demo.busy_world) ++ [conversation])%list
    /\ take 2 conversation
       = [ {| role := "user"; parts := [PStr general_prompt] |};
           {| role := "model"; parts := [PStr ACKNOWLEDGEMENT] |} ]
    /\ length conversation
       = (2 + min 20 (S (length (messages_of (db Demo.busy_world) "alice" "s1"))))%nat
    /\ (length conversation <= 22)%nat.
Proof.
  apply (chat_conversation_bounded (H := Demo.services) (Demo.post Demo.hello)
           {| uid := "alice" |} Demo.busy_world
           [("message", PStr "hi"); ("session_id", PStr "s1")] "hi" "s1" general_prompt).
  - exists "Bearer good", "good". repeat split; reflexivity.
  - reflexivity.
  - reflexivity.
  - discriminate.
  - reflexivity.
  - discriminate.
  - reflexivity.
  - reflexivity.
Defined.

Lemma chat_conversation_ends_with_message_witness :
  exists conversation,
    sent_conversations
      (log (chat (H := Demo.services) (Demo.post Demo.hello) Demo.busy_world).2)
    = (sent_conversations (log Demo.busy_world) ++ [conversation])%list
    /\ last conversation = Some {| role := "user"; parts := [PStr "hi"] |}.
Proof.
  apply (chat_conversation_ends_with_message (H := Demo.services) (Demo.post Demo.hello)
           {| uid := "alice" |} Demo.busy_world
           [("message", PStr "hi"); ("session_id", PStr "s1")] "hi" "s1" general_prompt).
  - exists "Bearer good", "good". repeat split; reflexivity.
  - reflexivity.
  - reflexivity.
  - discriminate.
  - reflexivity.
  - discriminate.
  - reflexivity.
  - reflexivity.
  - apply Forall_forall. vm_compute. repeat constructor.
Defined.

Lemma chat_reply_without_text_witness :
  exists resp w',
    chat (H := Demo2.silent_model) (Demo.post Demo.hello) Demo.busy_world = (Ok resp, w')
    /\ status resp = 500%nat
    /\ messages_of (db w') "alice" "s1"
       = (messages_of Demo.busy_store "alice" "s1"
          ++ [added_message (H := Demo2.silent_model) Demo.busy_store "user" (PStr "hi")])%list.
Proof.
  apply (chat_reply_without_text (H := Demo2.silent_model) (Demo.post Demo.hello)
           {| uid := "alice" |} Demo.busy_world
           [("message", PStr "hi"); ("session_id", PStr "s1")] "hi" "s1" general_prompt
           (AttrValue (PStr ""))).
  - exists "Bearer good", "good". repeat split; reflexivity.
  - reflexivity.
  - reflexivity.
  - discriminate.
  - reflexivity.
  - discriminate.
  - reflexivity.
  - reflexivity.
  - reflexivity.
  - right. exists (PStr ""). split; reflexivity.
Defined.

Lemma chat_reply_from_candidates_witness :
  let d_user :=
    added_message (H := Demo2.candidates_model) Demo.busy_store "user" (PStr "hi") in
  let s1 := with_message Demo.busy_store "alice" "s1" d_user in
  exists w',
    chat (H := Demo2.candidates_model) (Demo.post Demo.hello) Demo.busy_world
    = (Ok {| body := PDict [("response", PStr "Hi there")]; status := 200 |}, w')
    /\ messages_of (db w') "alice" "s1"
       = (messages_of Demo.busy_store "alice" "s1"
          ++ [d_user;
              added_message (H := Demo2.candidates_model) s1 "assistant"
                (PStr "Hi there")])%list.
Proof.
  apply (chat_reply_from_candidates (H := Demo2.candidates_model) (Demo.post Demo.hello)
           {| uid := "alice" |} Demo.busy_world
           [("message", PStr "hi"); ("session_id", PStr "s1")] "hi" "s1" general_prompt
           [("candidates", PList [PDict [("content", PStr "Hi there")]; PDict []])]
           [("content", PStr "Hi there")] [PDict []] "Hi there").
  - exists "Bearer good", "good". repeat split; reflexivity.
  - reflexivity.
  - reflexivity.
  - discriminate.
  - reflexivity.
  - discriminate.
  - reflexivity.
  - reflexivity.
  - reflexivity.
  - reflexivity.
  - reflexivity.
Defined.

Lemma get_session_messages_unknown_witness :
  exists w',
    get_session_messages (H := Demo.services) "elsewhere" (Demo.post PNone) Demo.busy_world
    = (Ok {| body := PList []; status := 200 |}, w')
    /\ db w' = db Demo.busy_world.
Proof.
  apply (get_session_messages_unknown (H := Demo.services) "elsewhere" (Demo.post PNone)
           {| uid := "alice" |} Demo.busy_world).
  - exists "Bearer good", "good". repeat split; reflexivity.
  - vm_compute. reflexivity.
Defined.

Lemma delete_session_absent_witness :
  exists w',
    delete_session (H := Demo.services) "elsewhere" (Demo.post PNone) Demo.busy_world
    = (Ok {| body := PDict [("success", PBool true)]; status := 200 |}, w')
    /\ db w' = db Demo.busy_world.
Proof.
  apply (delete_session_absent (H := Demo.services) "elsewhere" (Demo.post PNone)
           {| uid := "alice" |} Demo.busy_world).
  - exists "Bearer good", "good". repeat split; reflexivity.
  - vm_compute. reflexivity.
Defined.

Lemma created_session_listed_witness :
  exists session_id name w1 entries w2,
    create_session (H := Demo.services)
      (Demo.post (PDict [("session_name", PStr "proj")])) Demo.busy_world
    = (Ok {| body := PDict [("session_id", PStr session_id); ("name", name)];
             status := 200 |}, w1)
    /\ get_chat_sessions (H := Demo.services) (Demo.post PNone) w1
       = (Ok {| body := PList entries; status := 200 |}, w2)
    /\ PDict [("id", PStr session_id); ("name", name)] ∈ entries.
Proof.
  apply (created_session_listed (H := Demo.services)
           (Demo.post (PDict [("session_name", PStr "proj")])) (Demo.post PNone)
           {| uid := "alice" |} Demo.busy_world (PStr "proj")).
  - exists "Bearer good", "good". repeat split; reflexivity.
  - exists "Bearer good", "good". repeat split; reflexivity.
  - reflexivity.
  - left. exists "proj". split; [reflexivity |]. split; [discriminate | reflexivity].
Defined.

Lemma deleted_session_messages_resurface_witness :
  let w1 := (delete_session (H := Demo.services) "s1" (Demo.post PNone) Demo.busy_world).2 in
  let w2 := (create_session (H := Demo.services)
               (Demo.post (PDict [("session_name", PStr "s1")])) w1).2 in
  is_Some (sessions (db w2) !! ("alice", "s1"))
  /\ (get_session_messages (H := Demo.services) "s1" (Demo.post PNone) w2).1
     = (get_session_messages (H := Demo.services) "s1" (Demo.post PNone) Demo.busy_world).1.
Proof.
  apply (deleted_session_messages_resurface (H := Demo.services) (Demo.post PNone)
           (Demo.post (PDict [("session_name", PStr "s1")])) (Demo.post PNone)
           {| uid := "alice" |} Demo.busy_world "s1").
  - exists "Bearer good", "good". repeat split; reflexivity.
  - exists "Bearer good", "good". repeat split; reflexivity.
  - exists "Bearer good", "good". repeat split; reflexivity.
  - reflexivity.
  - discriminate.
  - reflexivity.
Defined.

Lemma chat_then_fetch_witness :
  let d_user := added_message (H := Demo.services) Demo.busy_store "user" (PStr "hi") in
  let s1 := with_message Demo.busy_store "alice" "s1" d_user in
  let d_assistant := added_message (H := Demo.services) s1 "assistant" (PStr "Hello") in
  exists earlier w2,
    get_session_messages (H := Demo.services) "s1" (Demo.post PNone)
      (chat (H := Demo.services) (Demo.post Demo.hello) Demo.busy_world).2
    = (Ok {| body := PList (map (fun m => PDict (message_to_dict m))
                            (earlier ++ [d_user; d_assistant]));
             status := 200 |}, w2)
    /\ earlier ≡ₚ messages_of Demo.busy_store "alice" "s1"
    /\ Sorted (fun a b => m_timestamp a <= m_timestamp b) earlier.
Proof.
  apply (chat_then_fetch (H := Demo.services) (Demo.post Demo.hello) (Demo.post PNone)
           {| uid := "alice" |} Demo.busy_world
           [("message", PStr "hi"); ("session_id", PStr "s1")] "hi" "s1" general_prompt
           (Object (AttrValue (PStr "Hello"))) "Hello").
  - exists "Bearer good", "good". repeat split; reflexivity.
  - exists "Bearer good", "good". repeat split; reflexivity.
  - reflexivity.
  - reflexivity.
  - discriminate.
  - reflexivity.
  - discriminate.
  - reflexivity.
  - reflexivity.
  - reflexivity.
  - reflexivity.
  - apply Forall_forall. vm_compute. repeat constructor.
  - vm_compute. reflexivity.
Defined.

Lemma default_label_minute_witness :
  let d := {| year := 2024; month := 3; day := 7; hour := 9; minute := 5 |} in
  ("Chat - " +:+ strftime_minute d = "Chat - " +:+ strftime_minute d <-> d = d)
  /\ String.length ("Chat - " +:+ strftime_minute d) = 23%nat.
Proof.
  apply (default_label_minute
           {| year := 2024; month := 3; day := 7; hour := 9; minute := 5 |}
           {| year := 2024; month := 3; day := 7; hour := 9; minute := 5 |});
    unfold valid_datetime; simpl; lia.
Defined.

Example default_label_demo :
  "Chat - " +:+ strftime_minute {| year := 2024; month := 3; day := 7; hour := 9; minute := 5 |}
  = "Chat - 2024-03-07 09:05".
Proof. reflexivity. Qed.

Lemma unnamed_session_listed_witness :
  exists entries w' p,
    get_chat_sessions (H := Demo.services) (Demo.post PNone) Demo.busy_world
    = (Ok {| body := PList entries; status := 200 |}, w')
    /\ PDict [("id", PStr "s2"); ("name", PStr ("Session " +:+ p))] ∈ entries
    /\ String.prefix p "s2" = true
    /\ String.length p = min 5 (String.length "s2").
Proof.
  apply (unnamed_session_listed (H := Demo.services) (Demo.post PNone)
           {| uid := "alice" |} Demo.busy_world "s2"
           {| s_name := None; s_created_at := 20 |}).
  - exists "Bearer good", "good". repeat split; reflexivity.
  - vm_compute. reflexivity.
  - reflexivity.
Defined.

Lemma create_session_overwrites_witness :
  exists w',
    create_session (H := Demo.services)
      (Demo.post (PDict [("session_name", PStr "s1")])) Demo.busy_world
    = (Ok {| body := PDict [("session_id", PStr "s1"); ("name", PStr "s1")];
             status := 200 |}, w')
    /\ sessions (db w') !! ("alice", "s1")
       = Some {| s_name := Some (PStr "s1");
                 s_created_at := server_timestamp (Services := Demo.services)
                                   (db Demo.busy_world) |}
    /\ size (sessions (db w')) = size (sessions (db Demo.busy_world))
    /\ messages (db w') = messages (db Demo.busy_world).
Proof.
  apply (create_session_overwrites (H := Demo.services)
           (Demo.post (PDict [("session_name", PStr "s1")])) {| uid := "alice" |}
           Demo.busy_world "s1" {| s_name := Some (PStr "first"); s_created_at := 10 |}).
  - exists "Bearer good", "good". repeat split; reflexivity.
  - reflexivity.
  - discriminate.
  - reflexivity.
  - vm_compute. reflexivity.
Defined.

Lemma mode_selects_instruction_witness :
  let d := [("message", PStr "hi"); ("mode", PStr "coding_coach")] in
  let mode := dict_get d "mode" (PStr "general") in
  system_prompts_get mode general_prompt
  = Ok (default "" (spec_instruction (mode_name mode)))
  /\ (assoc "mode" d = None ->
      system_prompts_get mode general_prompt = Ok general_prompt)
  /\ (forall m, mode = PStr m ->
      m <> "coding_coach" -> m <> "debugging_assistant" ->
      system_prompts_get mode general_prompt = Ok general_prompt)
  /\ (forall m p, mode = PStr m -> assoc m SYSTEM_PROMPTS = Some p ->
      system_prompts_get mode general_prompt = Ok p).
Proof.
  apply (mode_selects_instruction [("message", PStr "hi"); ("mode", PStr "coding_coach")]).
  reflexivity.
Defined.

(** ** The list of sessions over several requests *)

Section Listing.
Context `{Services}.

(** X24. A deleted session is no longer listed, and the deletion removes
    nothing else from the list: the next listing of the same user holds
    exactly the sessions that were there before, except the deleted one. *)
Theorem deleted_session_not_listed (deleter lister : request) user (w : world) session_id :
  authenticated deleter user ->
  authenticated lister user ->
  exists docs w2,
    get_chat_sessions lister (delete_session session_id deleter w).2
    = (Ok {| body := PList (map session_entry docs); status := 200 |}, w2)
    /\ forall sid d,
         (sid, d) ∈ docs
         <-> sid <> session_id /\ sessions (db w) !! (uid user, sid) = Some d.
Proof.
  intros Hdeleter Hlister.
  destruct (delete_session_authenticated session_id deleter user w Hdeleter) as [? Hdelete].
  rewrite Hdelete. cbn [snd].
  match goal with |- context [get_chat_sessions lister ?x] => set (w1 := x) end.
  destruct (get_chat_sessions_authenticated lister user w1 Hlister) as [? Hlist].
  eexists _, _. split; [exact Hlist |].
  intros sid d. rewrite merge_sort_Permutation, elem_of_sessions_of.
  unfold w1. cbn [db sessions]. rewrite lookup_delete_Some.
  split; intros [Hne Hlookup]; (split; [congruence | done]).
Qed.

(** X25. The chat route never changes what the user's list of sessions
    shows, whatever the request and however it ends: in particular a chat
    into a session that was never created stores its messages without
    creating the session. *)
Theorem chat_keeps_listing (request lister : request) user (w : world) :
  authenticated lister user ->
  (get_chat_sessions lister (chat request w).2).1 = (get_chat_sessions lister w).1.
Proof.
  intros Hlister.
  assert (changes same_sessions (fun _ => True) w (chat request w).2) as [Hsessions _].
  { apply chat_effect; [apply _ | done | by intros | done]. }
  destruct (get_chat_sessions_authenticated lister user (chat request w).2 Hlister)
    as [? ->].
  destruct (get_chat_sessions_authenticated lister user w Hlister) as [? ->].
  simpl. unfold sessions_of. by rewrite Hsessions.
Qed.

(** X26. Create-session does not need a body: with a JSON body that is
    null or otherwise falsy (an empty object, an empty array, zero, the
    empty string) it creates a session under a generated id, named by the
    timestamped label. *)
Theorem create_session_without_body (request : request) user (w : world) :
  authenticated request user ->
  truthy (json request) = false ->
  exists w',
    create_session request w
    = (Ok {| body := PDict [("session_id", PStr (auto_id (db w)));
                            ("name", PStr ("Chat - " +:+ strftime_minute utcnow))];
             status := 200 |}, w')
    /\ sessions (db w') !! (uid user, auto_id (db w))
       = Some {| s_name := Some (PStr ("Chat - " +:+ strftime_minute utcnow));
                 s_created_at := server_timestamp (db w) |}.
Proof.
  intros Hauth Hfalsy.
  assert (requested_name request = Ok PNone) as Hname.
  { unfold requested_name, py_or. by rewrite Hfalsy. }
  destruct (create_session_unnamed request user w PNone Hauth Hname eq_refl) as [? Hrun].
  eexists. split; [exact Hrun |]. simpl. apply lookup_insert_eq.
Qed.

End Listing.

Lemma deleted_session_not_listed_witness :
  exists docs w2,
    get_chat_sessions (H := Demo.services) (Demo.post PNone)
      (delete_session (H := Demo.services) "s1" (Demo.post PNone) Demo.busy_world).2
    = (Ok {| body := PList (map session_entry docs); status := 200 |}, w2)
    /\ forall sid d,
         (sid, d) ∈ docs
         <-> sid <> "s1" /\ sessions (db Demo.busy_world) !! ("alice", sid) = Some d.
Proof.
  apply (deleted_session_not_listed (H := Demo.services) (Demo.post PNone) (Demo.post PNone)
           {| uid := "alice" |} Demo.busy_world "s1").
  - exists "Bearer good", "good". repeat split; reflexivity.
  - exists "Bearer good", "good". repeat split; reflexivity.
Defined.

Lemma chat_keeps_listing_witness :
  (get_chat_sessions (H := Demo.services) (Demo.post PNone)
     (chat (H := Demo.services)
        (Demo.post (PDict [("message", PStr "hi"); ("session_id", PStr "never created")]))
        Demo.busy_world).2).1
  = (get_chat_sessions (H := Demo.services) (Demo.post PNone) Demo.busy_world).1.
Proof.
  apply (chat_keeps_listing (H := Demo.services)
           (Demo.post (PDict [("message", PStr "hi"); ("session_id", PStr "never created")]))
           (Demo.post PNone) {| uid := "alice" |} Demo.busy_world).
  exists "Bearer good", "good". repeat split; reflexivity.
Defined.

Lemma create_session_without_body_witness :
  exists w',
    create_session (H := Demo.services) (Demo.post PNone) Demo.empty_world
    = (Ok {| body := PDict [("session_id", PStr "doc0");
                            ("name", PStr "Chat - 2024-03-07 09:05")];
             status := 200 |}, w')
    /\ sessions (db w') !! ("alice", "doc0")
       = Some {| s_name := Some (PStr "Chat - 2024-03-07 09:05"); s_created_at := 0 |}.
Proof.
  apply (create_session_without_body (H := Demo.services) (Demo.post PNone)
           {| uid := "alice" |} Demo.empty_world).
  - exists "Bearer good", "good". repeat split; reflexivity.
  - reflexivity.
Defined.
